(** * YASP build script ([build/build.py]): a shallow embedding

    The script is a straight-line pipeline: dependency guard, source-file
    checks, configuration validation interleaved with theme/font/image
    lookups, SCSS compilation, section rendering, image inlining and
    placeholder substitution into the page template.

    Conventions of the embedding:
    - Python [str], [bytes] and file contents are [string] (one [ascii]
      per character or byte; text decoding is the identity);
    - the value returned by [yaml.safe_load] is a [yaml] tree (floats,
      dates and binary scalars are left out);
    - the file system is a finite map from path strings to nodes;
    - the script's effects ([print], file writes, [mkdir], the call to
      [sass.compile]) are recorded as a trace of [event]s in the state;
    - [sys.exit] and uncaught exceptions are the two ways to stop early. *)

From Stdlib Require Import String Ascii List ZArith Lia Bool Permutation.
From stdpp Require Import gmap strings list pretty.

Open Scope string_scope.

Set Warnings "-register-all".

(** ** Values produced by the YAML loader *)

Inductive scalar :=
| SNone
| SBool (b : bool)
| SInt (z : Z)
| SStr (s : string).

Inductive yaml :=
| YScalar (k : scalar)
| YList (l : list yaml)
| YDict (d : list (scalar * yaml)).

Definition YStr (s : string) : yaml := YScalar (SStr s).

(** Python exceptions the script can raise and never catches. *)
Inductive exn :=
| KeyError (k : string)
| TypeError
| AttributeError
| YAMLError
| FileNotFoundError
| IsADirectoryError
| FileExistsError.

(** ** Python primitives used by the script *)

Module Py.

(** [needle in haystack] for two [str]s. *)
Fixpoint substr (needle hay : string) : bool :=
  if String.prefix needle hay then true
  else match hay with
       | EmptyString => false
       | String _ hay' => substr needle hay'
       end.

Definition is_key (key : string) (k : scalar) : bool :=
  match k with
  | SStr s => String.eqb key s
  | _ => false
  end.

Fixpoint dict_get (key : string) (d : list (scalar * yaml)) : option yaml :=
  match d with
  | [] => None
  | (k, v) :: d' => if is_key key k then Some v else dict_get key d'
  end.

(** [key in v], where [key] is a [str] literal. *)
Definition contains (key : string) (v : yaml) : exn + bool :=
  match v with
  | YDict d => inr (existsb (fun kv => is_key key (fst kv)) d)
  | YList l =>
      inr (existsb (fun x => match x with
                             | YScalar k => is_key key k
                             | _ => false
                             end) l)
  | YScalar (SStr s) => inr (substr key s)
  | YScalar _ => inl TypeError
  end.

(** [v[key]], where [key] is a [str] literal. *)
Definition getitem (v : yaml) (key : string) : exn + yaml :=
  match v with
  | YDict d =>
      match dict_get key d with
      | Some x => inr x
      | None => inl (KeyError key)
      end
  | _ => inl TypeError
  end.

(** [v.items()]. *)
Definition items (v : yaml) : exn + list (scalar * yaml) :=
  match v with
  | YDict d => inr d
  | _ => inl AttributeError
  end.

(** [isinstance(v, dict)]. *)
Definition is_dict (v : yaml) : bool :=
  match v with
  | YDict _ => true
  | _ => false
  end.

Definition str_scalar (k : scalar) : string :=
  match k with
  | SNone => "None"
  | SBool true => "True"
  | SBool false => "False"
  | SInt z => pretty z
  | SStr s => s
  end.

(** [s.replace(old, new)]: every non-overlapping occurrence of [old],
    scanning from the left.  [skip] counts the characters of a matched
    occurrence that are still to be dropped. *)
Fixpoint replace_from (old new : string) (skip : nat) (s : string) : string :=
  match s with
  | EmptyString => EmptyString
  | String c s' =>
      match skip with
      | S k => replace_from old new k s'
      | O =>
          if String.prefix old s
          then new +:+ replace_from old new (String.length old - 1) s'
          else String c (replace_from old new 0 s')
      end
  end.

Fixpoint intersperse (new s : string) : string :=
  match s with
  | EmptyString => EmptyString
  | String c s' => String c (new +:+ intersperse new s')
  end.

Definition replace (old new s : string) : string :=
  match old with
  | EmptyString => new +:+ intersperse new s
  | _ => replace_from old new 0 s
  end.

End Py.

(** ** [base64.b64encode] (RFC 4648, standard alphabet, [=] padding) *)

Module Base64.

(** Six bits, most significant first. *)
Definition sextet : Type := bool * bool * bool * bool * bool * bool.

Definition alphabet : string :=
  "ABCDEFGHIJKLMNOPQRSTUVWXYZabcdefghijklmnopqrstuvwxyz0123456789+/".

Definition bit (b : bool) : nat := if b then 1 else 0.

Definition value (x : sextet) : nat :=
  let '(b5, b4, b3, b2, b1, b0) := x in
  32 * bit b5 + 16 * bit b4 + 8 * bit b3 + 4 * bit b2 + 2 * bit b1 + bit b0.

Definition pad : ascii := "="%char.

Definition char_of (x : sextet) : ascii :=
  match String.get (value x) alphabet with
  | Some c => c
  | None => pad
  end.

Fixpoint index_of (c : ascii) (s : string) : option nat :=
  match s with
  | EmptyString => None
  | String d s' => if Ascii.eqb c d then Some 0 else S <$> index_of c s'
  end.

Definition of_value (n : nat) : sextet :=
  (Nat.testbit n 5, Nat.testbit n 4, Nat.testbit n 3,
   Nat.testbit n 2, Nat.testbit n 1, Nat.testbit n 0).

Definition sextet_of (c : ascii) : option sextet :=
  of_value <$> index_of c alphabet.

(** Bits of an [ascii] are stored least significant first. *)
Definition enc3 (x y z : ascii) : sextet * sextet * sextet * sextet :=
  let '(Ascii x0 x1 x2 x3 x4 x5 x6 x7) := x in
  let '(Ascii y0 y1 y2 y3 y4 y5 y6 y7) := y in
  let '(Ascii z0 z1 z2 z3 z4 z5 z6 z7) := z in
  ((x7, x6, x5, x4, x3, x2),
   (x1, x0, y7, y6, y5, y4),
   (y3, y2, y1, y0, z7, z6),
   (z5, z4, z3, z2, z1, z0)).

Definition dec3 (q : sextet * sextet * sextet * sextet) : ascii * ascii * ascii :=
  let '((x7, x6, x5, x4, x3, x2),
        (x1, x0, y7, y6, y5, y4),
        (y3, y2, y1, y0, z7, z6),
        (z5, z4, z3, z2, z1, z0)) := q in
  (Ascii x0 x1 x2 x3 x4 x5 x6 x7,
   Ascii y0 y1 y2 y3 y4 y5 y6 y7,
   Ascii z0 z1 z2 z3 z4 z5 z6 z7).

Fixpoint b64encode (s : string) : string :=
  match s with
  | EmptyString => EmptyString
  | String x EmptyString =>
      let '(a, b, _, _) := enc3 x Ascii.zero Ascii.zero in
      String (char_of a) (String (char_of b) (String pad (String pad EmptyString)))
  | String x (String y EmptyString) =>
      let '(a, b, c, _) := enc3 x y Ascii.zero in
      String (char_of a) (String (char_of b) (String (char_of c) (String pad EmptyString)))
  | String x (String y (String z rest)) =>
      let '(a, b, c, d) := enc3 x y z in
      String (char_of a) (String (char_of b) (String (char_of c)
        (String (char_of d) (b64encode rest))))
  end.

Definition zero6 : sextet := (false, false, false, false, false, false).

(** Strict decoder: groups of four characters, padding only in the last
    group, unused trailing bits must be zero. *)
Fixpoint b64decode (s : string) : option string :=
  match s with
  | EmptyString => Some EmptyString
  | String c1 (String c2 (String c3 (String c4 rest))) =>
      a ← sextet_of c1;
      b ← sextet_of c2;
      if Ascii.eqb c3 pad then
        if Ascii.eqb c4 pad && String.eqb rest EmptyString then
          let '(x, y, _) := dec3 (a, b, zero6, zero6) in
          if Ascii.eqb y Ascii.zero then Some (String x EmptyString) else None
        else None
      else
        c ← sextet_of c3;
        if Ascii.eqb c4 pad then
          if String.eqb rest EmptyString then
            let '(x, y, z) := dec3 (a, b, c, zero6) in
            if Ascii.eqb z Ascii.zero
            then Some (String x (String y EmptyString)) else None
          else None
        else
          d ← sextet_of c4;
          tl ← b64decode rest;
          let '(x, y, z) := dec3 (a, b, c, d) in
          Some (String x (String y (String z tl)))
  | _ => None
  end.

End Base64.

(** ** Effects: file system, trace, early termination *)

Inductive node :=
| File (content : string)
| Dir.

(** What the process does besides computing: the observable trace. *)
Inductive event :=
| Print (line : string)
| Compile (source : string)
| Mkdir (path : string)
| WriteFile (path content : string).

(** The [sys.exit] sites of the script, in source order. *)
Inductive failure :=
| NoYaml
| NoSass
| NoSourceFile (path : string)
| NoConfigFile
| ConfigError (msg : string)
| NoThemeDir
| NoThemeFile
| NoFontDir
| NoFontFile
| NoImage
| CompileFailed.

(** The argument of [sys.exit] at each site. *)
Definition exit_code (f : failure) : Z :=
  match f with
  | NoYaml => 1
  | NoSass => 1
  | NoSourceFile _ => 2
  | NoConfigFile => 3
  | ConfigError _ => 3
  | NoThemeDir => 4
  | NoThemeFile => 4
  | NoFontDir => 5
  | NoFontFile => 5
  | NoImage => 6
  | CompileFailed => 7
  end.

Inductive stop :=
| Exit (f : failure)
| Uncaught (e : exn).

Record state := State { fs : gmap string node; trace : list event }.

Definition M (A : Type) : Type := state -> (stop + A) * state.

Definition ret {A} (a : A) : M A := fun s => (inr a, s).

Definition bind {A B} (m : M A) (k : A -> M B) : M B :=
  fun s => match m s with
           | (inr a, s') => k a s'
           | (inl e, s') => (inl e, s')
           end.

Notation "'def' x <~ m ;;; k" := (bind m (fun x => k))
  (at level 10, x name, m at level 100, k at level 200,
   format "'[v' 'def'  x  <~  m  ;;; '/' k ']'").
Notation "'run' m ;;; k" := (bind m (fun _ => k))
  (at level 10, m at level 100, k at level 200,
   format "'[v' 'run'  m  ;;; '/' k ']'").

Definition exit {A} (f : failure) : M A := fun s => (inl (Exit f), s).
Definition raise {A} (e : exn) : M A := fun s => (inl (Uncaught e), s).

(** A Python expression that may raise. *)
Definition lift {A} (r : exn + A) : M A :=
  match r with
  | inl e => raise e
  | inr a => ret a
  end.

Definition emit (e : event) : M unit :=
  fun s => (inr tt, State (fs s) (trace s ++ [e])).

Definition print (line : string) : M unit := emit (Print line).

(** [if not ok: otherwise], where [otherwise] ends in [sys.exit]. *)
Definition guard (ok : bool) (otherwise : M unit) : M unit :=
  if ok then ret tt else otherwise.

Definition is_file (p : string) : M bool :=
  fun s => (inr match fs s !! p with Some (File _) => true | _ => false end, s).

Definition is_dir (p : string) : M bool :=
  fun s => (inr match fs s !! p with Some Dir => true | _ => false end, s).

(** [open(p).read()], text or binary. *)
Definition read_file (p : string) : M string :=
  fun s => match fs s !! p with
           | Some (File c) => (inr c, s)
           | Some Dir => (inl (Uncaught IsADirectoryError), s)
           | None => (inl (Uncaught FileNotFoundError), s)
           end.

(** [p.mkdir()]. *)
Definition mkdir (p : string) : M unit :=
  fun s => match fs s !! p with
           | Some _ => (inl (Uncaught FileExistsError), s)
           | None => (inr tt, State (<[p := Dir]> (fs s)) (trace s ++ [Mkdir p]))
           end.

(** [open(p, "w")] followed by [f.write(content)], as one step: the file
    is created or replaced.  Python empties the file when it opens it and
    encodes the text afterwards; a text that the codec of the locale
    cannot encode, which would stop the run between the two, is not a
    [string] of this embedding. *)
Definition write_file (p content : string) : M unit :=
  fun s => match fs s !! p with
           | Some Dir => (inl (Uncaught IsADirectoryError), s)
           | _ => (inr tt, State (<[p := File content]> (fs s))
                                 (trace s ++ [WriteFile p content]))
           end.

(** Error monad of pure Python expressions. *)
Definition ebind {A B} (r : exn + A) (k : A -> exn + B) : exn + B :=
  match r with
  | inl e => inl e
  | inr a => k a
  end.

Notation "'try' x <~ r ;;; k" := (ebind r (fun x => k))
  (at level 10, x name, r at level 100, k at level 200,
   format "'[v' 'try'  x  <~  r  ;;; '/' k ']'").

(** ** Characters that Rocq string literals cannot hold *)

Definition nl : string := String "010"%char EmptyString.
Definition tab : string := String "009"%char EmptyString.
Definition dq : string := String "034"%char EmptyString.

Definition quoted (s : string) : string := dq +:+ s +:+ dq.

(** ** What the script takes from its environment *)

(** Library calls whose results the script only passes on. *)
Record externals := Externals {
  (** [yaml.safe_load] on the text of the configuration file. *)
  safe_load : string -> exn + yaml;
  (** [sass.compile(string=..., output_style="compressed")]:
      [inl] is the text of a [sass.CompileError]. *)
  sass_compile : string -> string + string;
  (** First component of [mimetypes.guess_type]. *)
  guess_type : string -> option string;
  (** [str()] of a list or a dict. *)
  repr : yaml -> string
}.

(** Whether the two imports succeed, and where the script lives:
    [build_dir_path] is [Path(__file__).parent] and [root_dir] its parent. *)
Record host := Host {
  yaml_installed : bool;
  sass_installed : bool;
  build_dir_path : string;
  root_dir : string
}.

(** [a / b] of [pathlib], without its normalisation of dots and of
    repeated separators: an absolute right operand wins, an empty one
    is dropped. *)
Definition joinpath (a b : string) : string :=
  if String.eqb b EmptyString then a
  else if String.prefix "/" b then b
  else a +:+ "/" +:+ b.

(** A value used where [pathlib] wants a [str]. *)
Definition as_str (v : yaml) : exn + string :=
  match v with
  | YScalar (SStr s) => inr s
  | _ => inl TypeError
  end.

(** [Path(v)]. *)
Definition to_path (v : yaml) : exn + string :=
  try s <~ as_str v ;;;
  inr (if String.eqb s EmptyString then "." else s).

(** ** The script *)

Definition refer_to_docs : string :=
  "Refer to the documentation for instructions on how to correctly create a config file.".

Definition config_error {A} (msg : string) : M A :=
  run print (msg +:+ nl +:+ refer_to_docs) ;;;
  exit (ConfigError msg).

Definition key_not_found (path : string) : string :=
  "Key " +:+ quoted path +:+ " not found in config.".

(** The seven placeholder names, in the order of [replacement_map]. *)
Definition placeholder_keys : list string :=
  ["LANG"; "STYLES"; "TITLE"; "IMAGE"; "MESSAGE"; "SECTIONS"; "SEARCH_PLACEHOLDER"].

Definition token (key : string) : string := "BUILDER:" +:+ key.

(** The loop over [replacement_map.items()]; [str.replace] wants a [str]. *)
Fixpoint substitute (items : list (string * yaml)) (index_content : string)
  : exn + string :=
  match items with
  | [] => inr index_content
  | (key, value) :: rest =>
      try v <~ as_str value ;;;
      substitute rest (Py.replace (token key) v index_content)
  end.

Definition section_open (section_name : string) : string :=
  "<section>" +:+ nl +:+ tab +:+ "<h3>" +:+ section_name +:+ "</h3>" +:+ nl
  +:+ tab +:+ "<div class=" +:+ quoted "sep" +:+ "></div>" +:+ nl
  +:+ tab +:+ "<ul>" +:+ nl.

Definition section_close : string :=
  tab +:+ "</ul>" +:+ nl +:+ "</section>" +:+ nl.

Definition separator : string :=
  "<div class=" +:+ quoted "sep" +:+ "></div>" +:+ nl.

Definition link_item (icon url link_name : string) : string :=
  tab +:+ tab +:+ "<li data-icon=" +:+ quoted icon +:+ "><a href="
  +:+ quoted url +:+ ">" +:+ link_name +:+ "</a></li>" +:+ nl.

Section Script.

Variable X : externals.
Variable h : host.

(** [str(v)], as an f-string field formats it. *)
Definition fmt (v : yaml) : string :=
  match v with
  | YScalar k => Py.str_scalar k
  | _ => repr X v
  end.

Definition image_to_data_url (path : string) : M string :=
  let mimetype := guess_type X path in
  def bytes <~ read_file path ;;;
  let encoded := Base64.b64encode bytes in
  ret ("data:" +:+ match mimetype with Some m => m | None => "None" end
       +:+ ";base64," +:+ encoded).

Definition index_path : string :=
  joinpath (joinpath (build_dir_path h) "sources") "index.html".
Definition style_path : string :=
  joinpath (joinpath (build_dir_path h) "sources") "style.scss".
Definition config_path : string := joinpath (build_dir_path h) "config.yaml".
Definition dist_dir : string := joinpath (root_dir h) "dist".
Definition html_output_file_path : string := joinpath dist_dir "index.html".

Definition install_help (what apt pip : string) : string :=
  what +:+ " is not installed." +:+ nl
  +:+ "Install it using one of these methods:" +:+ nl +:+ nl
  +:+ "Debian-based Linux system:" +:+ nl
  +:+ "sudo apt install " +:+ apt +:+ nl +:+ nl
  +:+ "Windows/Other:" +:+ nl
  +:+ "pip install " +:+ pip.

(** Lines 6-26. *)
Definition check_dependencies : M unit :=
  run guard (yaml_installed h)
        (run print (install_help "PyYAML" "python3-yaml" "pyyaml") ;;;
         exit NoYaml) ;;;
  guard (sass_installed h)
        (run print (install_help "libsass" "python3-libsass" "libsass") ;;;
         exit NoSass).

Definition source_missing (p : string) : string :=
  "Could not find source file " +:+ p +:+ " which is required for building.".

(** Lines 52-62. *)
Definition check_sources : M unit :=
  def ok <~ is_file index_path ;;;
  run guard ok (run print (source_missing index_path) ;;;
                exit (NoSourceFile index_path)) ;;;
  def ok <~ is_file style_path ;;;
  run guard ok (run print (source_missing style_path) ;;;
                exit (NoSourceFile style_path)) ;;;
  def ok <~ is_file config_path ;;;
  guard ok (run print ("Could not find a config file at " +:+ config_path
                       +:+ " which is required for building.") ;;;
            exit NoConfigFile).

(** Lines 65-69. *)
Definition read_config : M yaml :=
  def text <~ read_file config_path ;;;
  def config <~ lift (safe_load X text) ;;;
  def ok <~ lift (Py.contains "look" config) ;;;
  run guard ok (config_error (key_not_found "look")) ;;;
  ret config.

(** [key in config[section]]. *)
Definition has_key (config : yaml) (section key : string) : M bool :=
  lift (try sub <~ Py.getitem config section ;;; Py.contains key sub).

(** [config[section][key]]. *)
Definition get_key (config : yaml) (section key : string) : M yaml :=
  lift (try sub <~ Py.getitem config section ;;; Py.getitem sub key).

(** Lines 71-88: the path of the theme's stylesheet. *)
Definition get_theme (config : yaml) : M string :=
  def ok <~ has_key config "look" "theme" ;;;
  run guard ok (config_error (key_not_found "look/theme")) ;;;
  def v <~ get_key config "look" "theme" ;;;
  def theme_name <~ lift (as_str v) ;;;
  let theme_dir := joinpath (joinpath (root_dir h) "themes") theme_name in
  def ok <~ is_dir theme_dir ;;;
  run guard ok
        (run print ("Theme " +:+ quoted theme_name +:+ " doesn't exist!" +:+ nl
                    +:+ "Make sure there are no typos in the config file or the theme directory name and that the theme exists at "
                    +:+ theme_dir +:+ ".") ;;;
         exit NoThemeDir) ;;;
  let theme_file_path := joinpath theme_dir "theme.scss" in
  def ok <~ is_file theme_file_path ;;;
  run guard ok
        (run print ("The directory for the " +:+ quoted theme_name
                    +:+ " theme exists, but there is no theme.scss file inside it!"
                    +:+ nl +:+ "Make sure there is no typo in the name of the file.") ;;;
         exit NoThemeFile) ;;;
  run print ("Using theme:" +:+ nl +:+ tab +:+ theme_name
             +:+ " (" +:+ theme_file_path +:+ ")") ;;;
  ret theme_file_path.

(** Lines 90-107: the path of the font's stylesheet.  The presence test
    is the one of line 91, which asks for ["theme"]. *)
Definition get_font (config : yaml) : M string :=
  def ok <~ has_key config "look" "theme" ;;;
  run guard ok (config_error (key_not_found "look/theme")) ;;;
  def v <~ get_key config "look" "font" ;;;
  def font_name <~ lift (as_str v) ;;;
  let font_dir := joinpath (joinpath (root_dir h) "fonts") font_name in
  def ok <~ is_dir font_dir ;;;
  run guard ok
        (run print ("Font " +:+ quoted font_name +:+ " doesn't exist!" +:+ nl
                    +:+ "Make sure there are no typos in the config file or the font directory name and that the font exists at "
                    +:+ font_dir +:+ ".") ;;;
         exit NoFontDir) ;;;
  let font_file_path := joinpath font_dir "font.scss" in
  def ok <~ is_file font_file_path ;;;
  run guard ok
        (run print ("The directory for the " +:+ quoted font_name
                    +:+ " font exists, but there is no font.scss file inside it!"
                    +:+ nl +:+ "Make sure there is no typo in the name of the file.") ;;;
         exit NoFontFile) ;;;
  run print ("Using font:" +:+ nl +:+ tab +:+ font_name
             +:+ " (" +:+ font_file_path +:+ ")") ;;;
  ret font_file_path.

(** Lines 109-119. *)
Definition get_image (config : yaml) : M string :=
  def ok <~ has_key config "look" "image" ;;;
  run guard ok (config_error (key_not_found "look/image")) ;;;
  def v <~ get_key config "look" "image" ;;;
  def image_file_path <~ lift (to_path v) ;;;
  def ok <~ is_file image_file_path ;;;
  run guard ok
        (run print ("The image specified (" +:+ quoted image_file_path
                    +:+ ") doesn't exist!" +:+ nl
                    +:+ "Make sure there is no typo in the config file or the target image file name.") ;;;
         exit NoImage) ;;;
  run print ("Using image:" +:+ nl +:+ tab +:+ image_file_path) ;;;
  ret image_file_path.

(** Lines 121-127. *)
Definition get_message (config : yaml) : M yaml :=
  def ok <~ has_key config "look" "message" ;;;
  run guard ok (config_error (key_not_found "look/message")) ;;;
  def welcome_message <~ get_key config "look" "message" ;;;
  run print ("Welcome message:" +:+ nl +:+ tab +:+ quoted (fmt welcome_message)) ;;;
  ret welcome_message.

(** Lines 129-141: [(page_language, page_title)]. *)
Definition get_page (config : yaml) : M (yaml * yaml) :=
  def ok <~ lift (Py.contains "page" config) ;;;
  run guard ok (config_error (key_not_found "page")) ;;;
  def ok <~ has_key config "page" "lang" ;;;
  run guard ok (config_error (key_not_found "page/lang")) ;;;
  def page_language <~ get_key config "page" "lang" ;;;
  def ok <~ has_key config "page" "title" ;;;
  run guard ok (config_error (key_not_found "page/title")) ;;;
  def page_title <~ get_key config "page" "title" ;;;
  ret (page_language, page_title).

(** Lines 143-150. *)
Definition get_search (config : yaml) : M yaml :=
  def ok <~ lift (Py.contains "search" config) ;;;
  run guard ok (config_error (key_not_found "search")) ;;;
  def ok <~ has_key config "search" "placeholder" ;;;
  run guard ok (config_error (key_not_found "search/placeholder")) ;;;
  get_key config "search" "placeholder".

(** Lines 153-168. *)
Definition compile_styles (theme_file_path font_file_path : string) : M string :=
  def theme <~ read_file theme_file_path ;;;
  let style_content := theme +:+ nl in
  def font <~ read_file font_file_path ;;;
  let style_content := style_content +:+ font +:+ nl in
  def base <~ read_file style_path ;;;
  let style_content := style_content +:+ base in
  run emit (Compile style_content) ;;;
  match sass_compile X style_content with
  | inr compiled_css => ret compiled_css
  | inl e =>
      run print (nl +:+ "Failed to compile your theme/font:") ;;;
      run print e ;;;
      exit CompileFailed
  end.

(** The inner loop of lines 184-185, appending to [sections_html]. *)
Fixpoint links_loop (links : list (scalar * yaml)) (sections_html : string)
  : exn + string :=
  match links with
  | [] => inr sections_html
  | (link_name, link_data) :: rest =>
      try icon <~ Py.getitem link_data "icon" ;;;
      try url <~ Py.getitem link_data "url" ;;;
      links_loop rest
        (sections_html
         +:+ link_item (fmt icon) (fmt url) (Py.str_scalar link_name))
  end.

(** The outer loop of lines 181-192. *)
Fixpoint sections_loop (sections : list (scalar * yaml))
    (sections_html : string) (seperator_counter : nat) : exn + string :=
  match sections with
  | [] => inr sections_html
  | (section_name, links) :: rest =>
      let sections_html :=
        sections_html +:+ section_open (Py.str_scalar section_name) in
      try items <~ Py.items links ;;;
      try sections_html <~ links_loop items sections_html ;;;
      let sections_html := sections_html +:+ section_close in
      let seperator_counter := seperator_counter + 1 in
      let sections_html :=
        if Nat.eqb (seperator_counter mod 2) 1
        then sections_html +:+ separator
        else sections_html in
      sections_loop rest sections_html seperator_counter
  end.

(** Lines 171-195. *)
Definition get_sections (config : yaml) : M string :=
  def ok <~ lift (Py.contains "sections" config) ;;;
  run guard ok (config_error (key_not_found "sections")) ;;;
  def sections <~ lift (Py.getitem config "sections") ;;;
  run guard (Py.is_dict sections)
        (config_error ("Key " +:+ quoted "sections"
           +:+ " exists, but is not the right type (should be a dictionary).")) ;;;
  run print (nl +:+ "Generating sections...") ;;;
  def items <~ lift (Py.items sections) ;;;
  def sections_html <~ lift (sections_loop items EmptyString 0) ;;;
  run print (tab +:+ "Sections generated.") ;;;
  ret sections_html.

(** Lines 197-199. *)
Definition convert_image (image_file_path : string) : M string :=
  run print (nl +:+ "Converting image...") ;;;
  def image_data_url <~ image_to_data_url image_file_path ;;;
  run print (tab +:+ "Image converted.") ;;;
  ret image_data_url.

Definition replacement_map
    (page_language compiled_css page_title image_data_url welcome_message
     sections_html search_placeholder : yaml) : list (string * yaml) :=
  [("LANG", page_language);
   ("STYLES", compiled_css);
   ("TITLE", page_title);
   ("IMAGE", image_data_url);
   ("MESSAGE", welcome_message);
   ("SECTIONS", sections_html);
   ("SEARCH_PLACEHOLDER", search_placeholder)].

Definition done_message : string :=
  nl +:+ "Done!" +:+ nl +:+ tab +:+ "Compiled to: " +:+ html_output_file_path.

(** Lines 211-225. *)
Definition write_output (items : list (string * yaml)) : M unit :=
  def index_content <~ read_file index_path ;;;
  def index_content <~ lift (substitute items index_content) ;;;
  def ok <~ is_dir dist_dir ;;;
  run guard ok (mkdir dist_dir) ;;;
  run write_file html_output_file_path index_content ;;;
  print done_message.

(** Everything up to the replacement map: no step here touches the
    file system. *)
Definition prepare : M (list (string * yaml)) :=
  run check_dependencies ;;;
  run check_sources ;;;
  def config <~ read_config ;;;
  def theme_file_path <~ get_theme config ;;;
  def font_file_path <~ get_font config ;;;
  def image_file_path <~ get_image config ;;;
  def welcome_message <~ get_message config ;;;
  def page <~ get_page config ;;;
  def search_placeholder <~ get_search config ;;;
  def compiled_css <~ compile_styles theme_file_path font_file_path ;;;
  def sections_html <~ get_sections config ;;;
  def image_data_url <~ convert_image image_file_path ;;;
  ret (replacement_map (fst page) (YStr compiled_css) (snd page)
         (YStr image_data_url) welcome_message (YStr sections_html)
         search_placeholder).

(** The whole script. *)
Definition build : M unit :=
  def items <~ prepare ;;;
  write_output items.

End Script.

(** ** Vocabulary of the properties *)

(** The events that change the file system. *)
Definition is_write (e : event) : bool :=
  match e with
  | Mkdir _ | WriteFile _ _ => true
  | _ => false
  end.

Definition file_writes (t : list event) : list event := List.filter is_write t.

(** Whether [p] is a directory on the disk [d]. *)
Definition dir_exists (d : gmap string node) (p : string) : bool :=
  match d !! p with
  | Some Dir => true
  | _ => false
  end.




(** Key-paths of the configuration document. *)
Fixpoint lookup_path (path : list string) (v : yaml) : option yaml :=
  match path with
  | [] => Some v
  | key :: path' =>
      match Py.getitem v key with
      | inr sub => lookup_path path' sub
      | inl _ => None
      end
  end.

Definition required_paths : list (list string) :=
  [["look"]; ["look"; "theme"]; ["look"; "font"]; ["look"; "image"];
   ["look"; "message"]; ["page"]; ["page"; "lang"]; ["page"; "title"];
   ["search"]; ["search"; "placeholder"]; ["sections"]].

Definition present (config : yaml) (path : list string) : bool :=
  match lookup_path path config with
  | Some _ => true
  | None => false
  end.

Definition all_required_present (config : yaml) : bool :=
  forallb (present config) required_paths.

(** Left-to-right traversal that stops at the first exception. *)
Fixpoint traverse {A B} (f : A -> exn + B) (l : list A) : exn + list B :=
  match l with
  | [] => inr []
  | a :: l' =>
      try b <~ f a ;;;
      try bs <~ traverse f l' ;;;
      inr (b :: bs)
  end.

Definition join (l : list string) : string := foldr String.append EmptyString l.

(** One list item, and one section block: heading, separator marker and
    list of links. *)
Definition link_html (X : externals) (link : scalar * yaml) : exn + string :=
  try icon <~ Py.getitem (snd link) "icon" ;;;
  try url <~ Py.getitem (snd link) "url" ;;;
  inr (link_item (fmt X icon) (fmt X url) (Py.str_scalar (fst link))).

Definition section_block (X : externals) (section : scalar * yaml) : exn + string :=
  try links <~ Py.items (snd section) ;;;
  try lis <~ traverse (link_html X) links ;;;
  inr (section_open (Py.str_scalar (fst section)) +:+ join lis +:+ section_close).

(** The blocks in order, the one at 1-based position [pos] first, with a
    separator after each block at an odd position. *)
Fixpoint separated (pos : nat) (blocks : list string) : string :=
  match blocks with
  | [] => EmptyString
  | b :: blocks' =>
      b +:+ (if Nat.odd pos then separator else EmptyString)
        +:+ separated (S pos) blocks'
  end.

(** A link whose data is a mapping without ["icon"] or without ["url"]. *)
Definition link_lacks_field (link : scalar * yaml) : bool :=
  match snd link with
  | YDict d =>
      match Py.dict_get "icon" d, Py.dict_get "url" d with
      | Some _, Some _ => false
      | _, _ => true
      end
  | _ => false
  end.

Definition section_lacks_field (section : scalar * yaml) : bool :=
  match snd section with
  | YDict links => existsb link_lacks_field links
  | _ => false
  end.

(** Every section maps to a mapping of links, every link to a mapping. *)
Definition well_shaped (sections : list (scalar * yaml)) : bool :=
  forallb (fun section =>
             match snd section with
             | YDict links => forallb (fun link => Py.is_dict (snd link)) links
             | _ => false
             end) sections.

(** The name by which the script's messages call a key-path. *)
Definition path_name (path : list string) : string := String.concat "/" path.

(** *** Assertions about runs *)

(** Under the state invariant [I], [m] keeps [I], stops only in ways
    that [Qs] allows, in the state it stops in, and returns only values
    that [Qv] allows. *)
Definition triple {A} (I : state -> Prop) (m : M A)
    (Qs : stop -> state -> Prop) (Qv : A -> Prop) : Prop :=
  forall s, I s ->
    I (snd (m s)) /\
    match fst (m s) with
    | inl e => Qs e (snd (m s))
    | inr a => Qv a
    end.

(** Invariants that printing and compiling cannot break. *)
Definition stable (I : state -> Prop) : Prop :=
  forall s e, is_write e = false -> I s -> I (State (fs s) (trace s ++ [e])).

Definition any {A} : A -> Prop := fun _ => True.

Definition anyhow : stop -> state -> Prop := fun _ _ => True.

(** A way of stopping other than the configuration-error exit. *)
Definition not_config_error (e : stop) (_ : state) : Prop :=
  forall msg, e <> Exit (ConfigError msg).

(** A configuration-error exit comes right after its message. *)
Definition announced (e : stop) (s : state) : Prop :=
  forall msg, e = Exit (ConfigError msg) ->
    last (trace s) = Some (Print (msg +:+ nl +:+ refer_to_docs)).

(** The states whose disk is the one of [s]. *)
Definition same_disk (s : state) : state -> Prop := fun st => fs st = fs s.

(** The first required key-path that the configuration lacks. *)
Fixpoint first_missing (config : yaml) (paths : list (list string))
  : option (list string) :=
  match paths with
  | [] => None
  | path :: paths' =>
      if present config path then first_missing config paths' else Some path
  end.

(** The configuration is a mapping, and so are its [look], [page] and
    [search] entries where it has them. *)
Definition mappings (config : yaml) : bool :=
  Py.is_dict config
  && forallb (fun key => match lookup_path [key] config with
                         | Some v => Py.is_dict v
                         | None => true
                         end) ["look"; "page"; "search"].

(** Whether a result is the configuration-error exit. *)
Definition config_error_exit {A} (r : stop + A) : bool :=
  match r with
  | inl (Exit (ConfigError _)) => true
  | _ => false
  end.

(** *** Templates as pieces *)

Definition marker : string := "BUILDER:".

(** [p] and [t] differ at a position that both have. *)
Fixpoint mismatch (p t : string) : bool :=
  match p, t with
  | String a p', String b t' => if Ascii.eqb a b then mismatch p' t' else true
  | _, _ => false
  end.

(** No position of [s] starts the marker or a part of it that reaches
    the end of [s]. *)
Fixpoint clean (s : string) : bool :=
  match s with
  | EmptyString => true
  | String _ s' => mismatch marker s && clean s'
  end.

Inductive piece :=
| Lit (text : string)
| Tok (key : string).

Definition piece_text (p : piece) : string :=
  match p with
  | Lit s => s
  | Tok key => token key
  end.

Definition flatten (ps : list piece) : string := join (piece_text <$> ps).

Definition piece_ok (p : piece) : bool :=
  match p with
  | Lit s => clean s
  | Tok key => existsb (String.eqb key) placeholder_keys
  end.

Definition clean_value (v : yaml) : bool :=
  match v with
  | YScalar (SStr s) => clean s
  | _ => false
  end.

Fixpoint assoc (key : string) (items : list (string * yaml)) : option yaml :=
  match items with
  | [] => None
  | (k, v) :: items' => if String.eqb key k then Some v else assoc key items'
  end.

(** All placeholders filled in at once. *)
Definition resolve (items : list (string * yaml)) (p : piece) : string :=
  match p with
  | Lit s => s
  | Tok key =>
      match assoc key items with
      | Some (YScalar (SStr v)) => v
      | _ => token key
      end
  end.

(** One pass of the substitution loop, seen on the pieces. *)
Definition subst_piece (key value : string) (p : piece) : piece :=
  match p with
  | Lit s => Lit s
  | Tok k => if String.eqb key k then Lit value else Tok k
  end.

(** An entry of the replacement map whose value is a clean text. *)
Definition entry_ok (kv : string * yaml) : Prop :=
  In (fst kv) placeholder_keys /\ clean_value (snd kv) = true.

Definition fill (items : list (string * yaml)) (ps : list piece) : string :=
  join (resolve items <$> ps).

Definition has_token (s : string) : bool :=
  existsb (fun key => Py.substr (token key) s) placeholder_keys.

(** The configuration without the entry at a key-path of depth one or
    two. *)
Definition drop_key (key : string) (d : list (scalar * yaml)) : list (scalar * yaml) :=
  List.filter (fun kv => negb (Py.is_key key (fst kv))) d.

Definition drop_path (path : list string) (v : yaml) : yaml :=
  match path, v with
  | [a], YDict d => YDict (drop_key a d)
  | [a; b], YDict d =>
      YDict ((fun kv =>
                match snd kv with
                | YDict sub =>
                    if Py.is_key a (fst kv) then (fst kv, YDict (drop_key b sub))
                    else kv
                | _ => kv
                end) <$> d)
  | _, _ => v
  end.

(** Whether a run ended in the configuration error that names [path]. *)
Definition reports_missing {A} (path : list string) (r : stop + A) : bool :=
  match r with
  | inl (Exit (ConfigError msg)) => String.eqb msg (key_not_found (path_name path))
  | _ => false
  end.

(** ** A concrete site *)

Module Demo.

Definition dict (l : list (string * yaml)) : yaml :=
  YDict ((fun kv => (SStr (fst kv), snd kv)) <$> l).

Definition link (icon url : string) : yaml :=
  dict [("icon", YStr icon); ("url", YStr url)].

Definition sections : yaml :=
  dict [("A", dict [("x", link "i1" "u1")]);
        ("B", dict [("y", link "i2" "u2")]);
        ("C", dict [])].

Definition look : list (string * yaml) :=
  [("theme", YStr "dark"); ("font", YStr "mono");
   ("image", YStr "pic.png"); ("message", YStr "Hi")].

Definition site (look : list (string * yaml)) (placeholder sections : yaml) : yaml :=
  dict [("look", dict look);
        ("page", dict [("lang", YStr "en"); ("title", YStr "Home")]);
        ("search", dict [("placeholder", placeholder)]);
        ("sections", sections)].

Definition config : yaml := site look (YStr "Search") sections.

Definition mime (path : string) : option string :=
  if Py.substr ".png" path then Some "image/png" else None.

(** A loader that yields [c] and a compiler that returns its input. *)
Definition ext (c : yaml) : externals :=
  Externals (fun _ => inr c) (fun src => inr src) mime (fun _ => "{...}").

Definition here : host := Host true true "/site/build" "/site".

Definition disk (template : string) : gmap string node :=
  list_to_map
    [("/site/build/sources/index.html", File template);
     ("/site/build/sources/style.scss", File "body{}");
     ("/site/build/config.yaml", File "look: ...");
     ("/site/themes/dark", Dir);
     ("/site/themes/dark/theme.scss", File "$bg: black;");
     ("/site/fonts/mono", Dir);
     ("/site/fonts/mono/font.scss", File "$font: monospace;");
     ("pic.png", File "abc");
     ("logo.bin", File "abc")].

Definition pieces : list piece :=
  [Lit "<html lang="; Tok "LANG"; Lit "><title>"; Tok "TITLE";
   Lit "</title><style>"; Tok "STYLES"; Lit "</style><img src=";
   Tok "IMAGE"; Lit "><h1>"; Tok "MESSAGE"; Lit "</h1><input placeholder=";
   Tok "SEARCH_PLACEHOLDER"; Lit ">"; Tok "SECTIONS"; Lit "</html>"].

Definition start (template : string) : state := State (disk template) [].

(** A configuration without [look/font], and one whose search
    placeholder is itself a token. *)
Definition no_font : yaml :=
  site [("theme", YStr "dark"); ("image", YStr "pic.png"); ("message", YStr "Hi")]
       (YStr "Search") sections.

Definition leaky : yaml := site look (YStr "BUILDER:LANG") sections.

(** A configuration whose [sections] entry is a text. *)
Definition flat_sections : yaml := site look (YStr "Search") (YStr "none").

(** A compiler that rejects every source. *)
Definition failing : externals :=
  Externals (fun _ => inr config) (fun _ => inl "Error: invalid CSS")
    mime (fun _ => "{...}").

(** Sections whose second link has no target. *)
Definition lacking : list (scalar * yaml) :=
  [(SStr "A", dict [("x", link "i1" "u1")]);
   (SStr "B", dict [("y", dict [("icon", YStr "i2")])])].

End Demo.

(** ** Vocabulary of the early checks and of the assets *)

(** Whether [p] is a regular file on the disk [d]. *)
Definition file_exists (d : gmap string node) (p : string) : bool :=
  match d !! p with
  | Some (File _) => true
  | _ => false
  end.

Definition config_missing (p : string) : string :=
  "Could not find a config file at " +:+ p +:+ " which is required for building.".

(** The first of the five checks of lines 6-62 that fails, with the
    line it prints. *)
Definition early_failure (h : host) (d : gmap string node)
  : option (failure * string) :=
  if negb (yaml_installed h)
  then Some (NoYaml, install_help "PyYAML" "python3-yaml" "pyyaml")
  else if negb (sass_installed h)
  then Some (NoSass, install_help "libsass" "python3-libsass" "libsass")
  else if negb (file_exists d (index_path h))
  then Some (NoSourceFile (index_path h), source_missing (index_path h))
  else if negb (file_exists d (style_path h))
  then Some (NoSourceFile (style_path h), source_missing (style_path h))
  else if negb (file_exists d (config_path h))
  then Some (NoConfigFile, config_missing (config_path h))
  else None.

(** Where a theme and a font are looked for. *)
Definition theme_dir (h : host) (name : string) : string :=
  joinpath (joinpath (root_dir h) "themes") name.
Definition theme_file (h : host) (name : string) : string :=
  joinpath (theme_dir h name) "theme.scss".
Definition font_dir (h : host) (name : string) : string :=
  joinpath (joinpath (root_dir h) "fonts") name.
Definition font_file (h : host) (name : string) : string :=
  joinpath (font_dir h name) "font.scss".

Definition theme_found (d : gmap string node) (h : host) (name : string) : bool :=
  dir_exists d (theme_dir h name) && file_exists d (theme_file h name).
Definition font_found (d : gmap string node) (h : host) (name : string) : bool :=
  dir_exists d (font_dir h name) && file_exists d (font_file h name).

(** The exit taken and the line printed for a theme that is not found:
    its directory is looked at first. *)
Definition theme_failure (d : gmap string node) (h : host) (name : string)
  : failure * string :=
  if dir_exists d (theme_dir h name)
  then (NoThemeFile,
        "The directory for the " +:+ quoted name
        +:+ " theme exists, but there is no theme.scss file inside it!"
        +:+ nl +:+ "Make sure there is no typo in the name of the file.")
  else (NoThemeDir,
        "Theme " +:+ quoted name +:+ " doesn't exist!" +:+ nl
        +:+ "Make sure there are no typos in the config file or the theme directory name and that the theme exists at "
        +:+ theme_dir h name +:+ ".").

Definition font_failure (d : gmap string node) (h : host) (name : string)
  : failure * string :=
  if dir_exists d (font_dir h name)
  then (NoFontFile,
        "The directory for the " +:+ quoted name
        +:+ " font exists, but there is no font.scss file inside it!"
        +:+ nl +:+ "Make sure there is no typo in the name of the file.")
  else (NoFontDir,
        "Font " +:+ quoted name +:+ " doesn't exist!" +:+ nl
        +:+ "Make sure there are no typos in the config file or the font directory name and that the font exists at "
        +:+ font_dir h name +:+ ".").

Definition image_missing (path : string) : string :=
  "The image specified (" +:+ quoted path +:+ ") doesn't exist!" +:+ nl
  +:+ "Make sure there is no typo in the config file or the target image file name.".

Definition using_theme (h : host) (name : string) : string :=
  "Using theme:" +:+ nl +:+ tab +:+ name +:+ " (" +:+ theme_file h name +:+ ")".
Definition using_font (h : host) (name : string) : string :=
  "Using font:" +:+ nl +:+ tab +:+ name +:+ " (" +:+ font_file h name +:+ ")".

(** A value that [str.replace] accepts. *)
Definition is_str (v : yaml) : bool :=
  match v with
  | YScalar (SStr _) => true
  | _ => false
  end.

(** The passes of the substitution loop on text values, without the
    type check. *)
Fixpoint replace_all (items : list (string * yaml)) (content : string) : string :=
  match items with
  | [] => content
  | (key, YScalar (SStr v)) :: rest =>
      replace_all rest (Py.replace (token key) v content)
  | _ :: rest => replace_all rest content
  end.

(** A link that is a mapping with an icon and a target, and sections
    made of such links. *)
Definition link_complete (link : scalar * yaml) : bool :=
  match snd link with
  | YDict d =>
      match Py.dict_get "icon" d, Py.dict_get "url" d with
      | Some _, Some _ => true
      | _, _ => false
      end
  | _ => false
  end.

Definition renderable (sections : list (scalar * yaml)) : bool :=
  forallb (fun section =>
             match snd section with
             | YDict links => forallb link_complete links
             | _ => false
             end) sections.

Fixpoint no_colon (s : string) : bool :=
  match s with
  | EmptyString => true
  | String c s' => negb (Ascii.eqb c ":"%char) && no_colon s'
  end.

Definition using_image (path : string) : string :=
  "Using image:" +:+ nl +:+ tab +:+ path.

Definition welcome_line (X : externals) (message : yaml) : string :=
  "Welcome message:" +:+ nl +:+ tab +:+ quoted (fmt X message).

(** What [image_to_data_url] returns for a file at [path] holding
    [bytes]. *)
Definition data_url (X : externals) (path bytes : string) : string :=
  "data:" +:+ match guess_type X path with Some m => m | None => "None" end
  +:+ ";base64," +:+ Base64.b64encode bytes.

(** What is handed to the compiler. *)
Definition style_source (theme font base : string) : string :=
  theme +:+ nl +:+ font +:+ nl +:+ base.

(** The four lines that a run has printed when it gets to the
    compilation. *)
Definition lines_before_compile (X : externals) (h : host)
    (theme font image : string) (message : yaml) : list event :=
  [Print (using_theme h theme); Print (using_font h font);
   Print (using_image image); Print (welcome_line X message)].

(** The events of a complete run from the compilation on. *)
Definition events_from_compile (h : host) (source content : string)
    (dist_exists : bool) : list event :=
  [Compile source;
   Print (nl +:+ "Generating sections...");
   Print (tab +:+ "Sections generated.");
   Print (nl +:+ "Converting image...");
   Print (tab +:+ "Image converted.")]
  ++ (if dist_exists then [] else [Mkdir (dist_dir h)])
  ++ [WriteFile (html_output_file_path h) content; Print (done_message h)].

(** The paths that a complete run reads or tests. *)
Definition inputs (h : host) (theme font image : string) : list string :=
  [index_path h; style_path h; config_path h; theme_dir h theme;
   theme_file h theme; font_dir h font; font_file h font; image].

(** Whether [p] is neither the distribution directory nor the output
    file. *)
Definition apart (h : host) (p : string) : bool :=
  negb (String.eqb p (dist_dir h))
  && negb (String.eqb p (html_output_file_path h)).

(** The disk that a complete run leaves, having written [content]. *)
Definition after_run (h : host) (content : string) (d : gmap string node)
  : gmap string node :=
  <[html_output_file_path h := File content]>
    (if dir_exists d (dist_dir h) then d else <[dist_dir h := Dir]> d).

(** More sites: a theme that is not installed, a font that is not, an
    image that is not there, a numeric title, a text for [look]. *)
Module Cases.

Definition with_look (look : list (string * yaml)) : yaml :=
  Demo.site look (YStr "Search") Demo.sections.

Definition no_theme : yaml :=
  with_look [("theme", YStr "light"); ("font", YStr "mono");
             ("image", YStr "pic.png"); ("message", YStr "Hi")].

Definition no_font : yaml :=
  with_look [("theme", YStr "dark"); ("font", YStr "serif");
             ("image", YStr "pic.png"); ("message", YStr "Hi")].

Definition no_image : yaml :=
  with_look [("theme", YStr "dark"); ("font", YStr "mono");
             ("image", YStr "gone.png"); ("message", YStr "Hi")].

Definition numeric_message : yaml :=
  with_look [("theme", YStr "dark"); ("font", YStr "mono");
             ("image", YStr "pic.png"); ("message", YScalar (SInt 5))].

Definition text_look : yaml :=
  Demo.dict [("look", YStr "a theme of my own")].

Definition no_sections : yaml := drop_path ["sections"] Demo.config.

(** Sections whose first link is a text and whose second link has no
    target. *)
Definition text_link : list (scalar * yaml) :=
  [(SStr "A", Demo.dict [("x", YStr "u1");
                         ("y", Demo.dict [("icon", YStr "i2")])])].

(** The sections of the demo site as a list, and their rendering. *)
Definition section_list : list (scalar * yaml) :=
  [(SStr "A", Demo.dict [("x", Demo.link "i1" "u1")]);
   (SStr "B", Demo.dict [("y", Demo.link "i2" "u2")]);
   (SStr "C", Demo.dict [])].

Definition rendered : string :=
  match sections_loop (Demo.ext Demo.config) section_list EmptyString 0 with
  | inr html => html
  | inl _ => EmptyString
  end.

(** A disk on which [dist] is a regular file. *)
Definition blocked : state :=
  State (<["/site/dist" := File "x"]> (Demo.disk (flatten Demo.pieces))) [].

End Cases.

(** * Properties *)

(** ** Base64 *)

Module Base64Facts.
Import Base64.

Lemma sextet_of_char_of (x : sextet) : sextet_of (char_of x) = Some x.
Proof.
  destruct x as [[[[[b5 b4] b3] b2] b1] b0].
  destruct b5, b4, b3, b2, b1, b0; vm_compute; reflexivity.
Qed.

Lemma char_of_not_pad (x : sextet) : Ascii.eqb (char_of x) pad = false.
Proof.
  destruct x as [[[[[b5 b4] b3] b2] b1] b0].
  destruct b5, b4, b3, b2, b1, b0; vm_compute; reflexivity.
Qed.

Lemma dec3_enc3 (x y z : ascii) : dec3 (enc3 x y z) = (x, y, z).
Proof. destruct x, y, z; reflexivity. Qed.

(** The last two sextets of a one-byte group and the last one of a
    two-byte group carry only the bits of the padding zeros. *)
Lemma enc3_one (x : ascii) :
  exists a b, enc3 x Ascii.zero Ascii.zero = (a, b, zero6, zero6).
Proof. destruct x; do 2 eexists; reflexivity. Qed.

Lemma enc3_two (x y : ascii) :
  exists a b c, enc3 x y Ascii.zero = (a, b, c, zero6).
Proof. destruct x, y; do 3 eexists; reflexivity. Qed.

Lemma b64decode_group (c1 c2 c3 c4 : ascii) (rest : string) :
  b64decode (String c1 (String c2 (String c3 (String c4 rest)))) =
  (a ← sextet_of c1;
   b ← sextet_of c2;
   if Ascii.eqb c3 pad then
     if Ascii.eqb c4 pad && String.eqb rest EmptyString then
       let '(x, y, _) := dec3 (a, b, zero6, zero6) in
       if Ascii.eqb y Ascii.zero then Some (String x EmptyString) else None
     else None
   else
     c ← sextet_of c3;
     if Ascii.eqb c4 pad then
       if String.eqb rest EmptyString then
         let '(x, y, z) := dec3 (a, b, c, zero6) in
         if Ascii.eqb z Ascii.zero
         then Some (String x (String y EmptyString)) else None
       else None
     else
       d ← sextet_of c4;
       tl ← b64decode rest;
       let '(x, y, z) := dec3 (a, b, c, d) in
       Some (String x (String y (String z tl)))).
Proof. reflexivity. Qed.

Lemma b64encode_group (x y z : ascii) (rest : string) :
  b64encode (String x (String y (String z rest))) =
  let '(a, b, c, d) := enc3 x y z in
  String (char_of a) (String (char_of b) (String (char_of c)
    (String (char_of d) (b64encode rest)))).
Proof. reflexivity. Qed.

Lemma roundtrip_upto (n : nat) :
  forall s : string, String.length s <= n -> b64decode (b64encode s) = Some s.
Proof.
  induction n as [n IH] using lt_wf_ind.
  intros [|x [|y [|z rest]]] Hlen.
  - reflexivity.
  - destruct (enc3_one x) as (a & b & E).
    pose proof (dec3_enc3 x Ascii.zero Ascii.zero) as D. rewrite E in D.
    cbn [b64encode]. rewrite E. rewrite b64decode_group.
    rewrite !sextet_of_char_of. cbn [mbind option_bind].
    rewrite D. reflexivity.
  - destruct (enc3_two x y) as (a & b & c & E).
    pose proof (dec3_enc3 x y Ascii.zero) as D. rewrite E in D.
    cbn [b64encode]. rewrite E. rewrite b64decode_group.
    rewrite !sextet_of_char_of. cbn [mbind option_bind].
    rewrite char_of_not_pad. cbn [mbind option_bind].
    rewrite D. reflexivity.
  - rewrite b64encode_group.
    pose proof (dec3_enc3 x y z) as D.
    destruct (enc3 x y z) as [[[a b] c] d].
    rewrite b64decode_group.
    rewrite !sextet_of_char_of. cbn [mbind option_bind].
    rewrite !char_of_not_pad. cbn [mbind option_bind].
    rewrite (IH (String.length rest)); [| cbn in Hlen; lia | lia].
    cbn [mbind option_bind]. rewrite D. reflexivity.
Qed.

Lemma b64decode_b64encode (s : string) : b64decode (b64encode s) = Some s.
Proof. exact (roundtrip_upto (String.length s) s (Nat.le_refl _)). Qed.

Lemma b64encode_nonempty (s : string) :
  s <> EmptyString -> b64encode s <> EmptyString.
Proof.
  destruct s as [|x [|y [|z rest]]]; [congruence | | |]; intros _.
  - cbn [b64encode]. destruct (enc3 x _ _) as [[[a b] c] d]. discriminate.
  - cbn [b64encode]. destruct (enc3 x y _) as [[[a b] c] d]. discriminate.
  - rewrite b64encode_group. destruct (enc3 x y z) as [[[a b] c] d]. discriminate.
Qed.

End Base64Facts.

(** ** Strings *)

Lemma append_empty_l (a : string) : EmptyString +:+ a = a.
Proof. reflexivity. Qed.

Lemma append_cons (x : ascii) (a b : string) :
  String x a +:+ b = String x (a +:+ b).
Proof. reflexivity. Qed.

Lemma append_assoc (a b c : string) : (a +:+ b) +:+ c = a +:+ (b +:+ c).
Proof.
  induction a as [|x a IH]; [reflexivity |].
  now rewrite !append_cons, IH.
Qed.

Lemma append_empty_r (a : string) : a +:+ EmptyString = a.
Proof.
  induction a as [|x a IH]; [reflexivity |].
  now rewrite append_cons, IH.
Qed.

Lemma join_app (l1 l2 : list string) : join (l1 ++ l2) = join l1 +:+ join l2.
Proof.
  induction l1 as [|a l1 IH]; simpl; [reflexivity |].
  fold (join (l1 ++ l2)). fold (join l1). now rewrite IH, append_assoc.
Qed.

(** ** The section renderer *)

Section Sections.

Variable X : externals.

Lemma counter_parity (n : nat) : Nat.eqb ((n + 1) mod 2) 1 = Nat.odd (S n).
Proof.
  rewrite Nat.add_1_r, <- Nat.bit0_mod, Nat.bit0_odd.
  now destruct (Nat.odd (S n)).
Qed.

Lemma links_loop_spec (links : list (scalar * yaml)) (acc : string) :
  links_loop X links acc =
  (try lis <~ traverse (link_html X) links ;;;
   inr (acc +:+ join lis)).
Proof.
  revert acc. induction links as [|[link_name link_data] links IH]; intros acc.
  - cbn. now rewrite append_empty_r.
  - cbn [links_loop traverse]. unfold link_html at 1. cbn [fst snd].
    destruct (Py.getitem link_data "icon") as [e|icon]; [reflexivity |].
    destruct (Py.getitem link_data "url") as [e|url]; [reflexivity |].
    cbn [ebind]. rewrite IH.
    destruct (traverse (link_html X) links) as [e|lis]; [reflexivity |].
    cbn. now rewrite append_assoc.
Qed.

Lemma sections_loop_spec (sections : list (scalar * yaml)) (acc : string) (n : nat) :
  sections_loop X sections acc n =
  (try blocks <~ traverse (section_block X) sections ;;;
   inr (acc +:+ separated (S n) blocks)).
Proof.
  revert acc n.
  induction sections as [|[section_name links] sections IH]; intros acc n.
  - cbn. now rewrite append_empty_r.
  - cbn [sections_loop traverse]. unfold section_block at 1. cbn [fst snd].
    destruct (Py.items links) as [e|items]; [reflexivity |].
    cbn [ebind]. rewrite links_loop_spec.
    destruct (traverse (link_html X) items) as [e|lis]; [reflexivity |].
    cbn [ebind]. rewrite counter_parity, IH.
    destruct (traverse (section_block X) sections) as [e|blocks]; [reflexivity |].
    cbn [ebind separated]. f_equal. rewrite Nat.add_1_r.
    destruct (Nat.odd (S n));
      now rewrite ?append_assoc, ?append_empty_l.
Qed.

(** C3. The rendered sections are the section blocks in input order,
    each block at an odd 1-based position followed by exactly one extra
    separator block and each block at an even position by none; a
    section that cannot be rendered stops the loop with its exception. *)
Theorem sections_html_odd_separators (sections : list (scalar * yaml)) :
  sections_loop X sections EmptyString 0 =
  (try blocks <~ traverse (section_block X) sections ;;;
   inr (separated 1 blocks)).
Proof. now rewrite sections_loop_spec. Qed.

(** The three sections of the specification's example: one separator
    after [A] and after [C], none after [B]. *)
Example sections_html_example :
  exists a b c,
    traverse (section_block X)
      [(SStr "A", Demo.dict [("x", Demo.link "i1" "u1")]);
       (SStr "B", Demo.dict [("y", Demo.link "i2" "u2")]);
       (SStr "C", Demo.dict [])] = inr [a; b; c] /\
    sections_loop X
      [(SStr "A", Demo.dict [("x", Demo.link "i1" "u1")]);
       (SStr "B", Demo.dict [("y", Demo.link "i2" "u2")]);
       (SStr "C", Demo.dict [])] EmptyString 0 =
    inr (a +:+ separator +:+ b +:+ c +:+ separator).
Proof.
  do 3 eexists. split; [reflexivity |].
  rewrite sections_loop_spec. cbn [traverse ebind]. cbv [section_block].
  cbn [Py.items snd fst Demo.dict Demo.link fmap list_fmap traverse ebind].
  cbv [link_html]. cbn [snd fst Py.getitem Py.dict_get Py.is_key ebind traverse].
  cbn -[String.append separator section_open section_close link_item join].
  now rewrite !append_empty_l, !append_empty_r.
Qed.

(** *** Links without an icon or a target *)

Lemma links_loop_key_error (links : list (scalar * yaml)) (acc : string) (e : exn) :
  forallb (fun link => Py.is_dict (snd link)) links = true ->
  links_loop X links acc = inl e ->
  e = KeyError "icon" \/ e = KeyError "url".
Proof.
  revert acc. induction links as [|[link_name link_data] links IH]; intros acc.
  - discriminate.
  - cbn [forallb links_loop snd]. intros [Hd Hrest]%andb_prop.
    destruct link_data as [k|l|d]; try discriminate. cbn [Py.getitem].
    destruct (Py.dict_get "icon" d); [| cbn; intros [= <-]; now left].
    destruct (Py.dict_get "url" d); [| cbn; intros [= <-]; now right].
    cbn [ebind]. now apply IH.
Qed.

Lemma links_loop_lacking (links : list (scalar * yaml)) (acc : string) :
  existsb link_lacks_field links = true ->
  exists e, links_loop X links acc = inl e.
Proof.
  revert acc. induction links as [|[link_name link_data] links IH]; intros acc.
  - discriminate.
  - cbn [existsb links_loop]. intros [Hl|Hrest]%orb_prop.
    + unfold link_lacks_field in Hl. cbn [snd] in Hl.
      destruct link_data as [k|l|d]; try discriminate. cbn [Py.getitem].
      destruct (Py.dict_get "icon" d); [| cbn; eauto].
      destruct (Py.dict_get "url" d); [discriminate | cbn; eauto].
    + destruct (Py.getitem link_data "icon"); [cbn; eauto |].
      destruct (Py.getitem link_data "url"); [cbn; eauto |].
      cbn [ebind]. now apply IH.
Qed.

Lemma sections_loop_key_error (sections : list (scalar * yaml))
    (acc : string) (n : nat) (e : exn) :
  well_shaped sections = true ->
  sections_loop X sections acc n = inl e ->
  e = KeyError "icon" \/ e = KeyError "url".
Proof.
  revert acc n. induction sections as [|[section_name links] sections IH];
    intros acc n.
  - discriminate.
  - unfold well_shaped. cbn [forallb sections_loop snd].
    intros [Hd Hrest]%andb_prop.
    destruct links as [k|l|d]; try discriminate. cbn [Py.items ebind].
    destruct (links_loop X d _) as [e'|html] eqn:E.
    + cbn. intros [= <-]. eapply links_loop_key_error; eauto.
    + cbn [ebind]. now apply IH.
Qed.

Lemma sections_loop_lacking (sections : list (scalar * yaml))
    (acc : string) (n : nat) :
  existsb section_lacks_field sections = true ->
  exists e, sections_loop X sections acc n = inl e.
Proof.
  revert acc n. induction sections as [|[section_name links] sections IH];
    intros acc n.
  - discriminate.
  - cbn [existsb sections_loop]. intros [Hl|Hrest]%orb_prop.
    + unfold section_lacks_field in Hl. cbn [snd] in Hl.
      destruct links as [k|l|d]; try discriminate. cbn [Py.items ebind].
      destruct (links_loop_lacking d
                  (acc +:+ section_open (Py.str_scalar section_name)) Hl)
        as [e ->].
      cbn. eauto.
    + destruct (Py.items links) as [e|items]; [cbn; eauto |].
      cbn [ebind].
      destruct (links_loop X items _) as [e|html]; [cbn; eauto |].
      cbn [ebind]. now apply IH.
Qed.

End Sections.

(** ** A small program logic for the script's monad *)

Section Logic.

Context {A B : Type}.
Variable I : state -> Prop.
Variable Qs : stop -> state -> Prop.

Lemma triple_ret (a : A) (Qv : A -> Prop) : Qv a -> triple I (ret a) Qs Qv.
Proof. intros Ha s Hs. now split. Qed.

Lemma triple_bind (m : M A) (k : A -> M B) (Qa : A -> Prop) (Qv : B -> Prop) :
  triple I m Qs Qa ->
  (forall a, Qa a -> triple I (k a) Qs Qv) ->
  triple I (bind m k) Qs Qv.
Proof.
  intros Hm Hk s Hs. unfold bind.
  destruct (Hm s Hs) as [HI Hr]. destruct (m s) as [[e|a] s1]; cbn in *.
  - now split.
  - now apply Hk.
Qed.

Lemma triple_bind_ret (a : A) (k : A -> M B) (Qv : B -> Prop) :
  triple I (k a) Qs Qv -> triple I (bind (ret a) k) Qs Qv.
Proof. intros Hk s Hs. exact (Hk s Hs). Qed.

Lemma triple_exit (f : failure) (Qv : A -> Prop) :
  (forall s, I s -> Qs (Exit f) s) -> triple I (exit f) Qs Qv.
Proof. intros Hf s Hs. split; [assumption | now apply Hf]. Qed.

Lemma triple_raise (e : exn) (Qv : A -> Prop) :
  (forall s, I s -> Qs (Uncaught e) s) -> triple I (raise e) Qs Qv.
Proof. intros Hf s Hs. split; [assumption | now apply Hf]. Qed.

Lemma triple_bind_raise (e : exn) (k : A -> M B) (Qv : B -> Prop) :
  (forall s, I s -> Qs (Uncaught e) s) -> triple I (bind (raise e) k) Qs Qv.
Proof. intros Hf s Hs. split; [assumption | now apply Hf]. Qed.

Lemma triple_lift (r : exn + A) (Qv : A -> Prop) :
  (forall e s, r = inl e -> I s -> Qs (Uncaught e) s) ->
  (forall a, r = inr a -> Qv a) ->
  triple I (lift r) Qs Qv.
Proof. intros He Ha s Hs. destruct r as [e|a]; cbn; split; auto. Qed.

Lemma triple_weaken (m : M A) (Qv Qv' : A -> Prop) :
  triple I m Qs Qv -> (forall a, Qv a -> Qv' a) -> triple I m Qs Qv'.
Proof.
  intros Hm Hw s Hs. destruct (Hm s Hs) as [HI Hr]. split; [exact HI |].
  destruct (fst (m s)); auto.
Qed.

End Logic.

Section LogicPrimitives.

Variable I : state -> Prop.
Variable Qs : stop -> state -> Prop.
Hypothesis I_stable : stable I.

Lemma triple_emit (e : event) (Qv : unit -> Prop) :
  is_write e = false -> Qv tt -> triple I (emit e) Qs Qv.
Proof. intros He Hq s Hs. split; [now apply I_stable | exact Hq]. Qed.

Lemma triple_print (line : string) (Qv : unit -> Prop) :
  Qv tt -> triple I (print line) Qs Qv.
Proof. now apply triple_emit. Qed.

(** [config_error] prints its message and exits; it never returns. *)
Lemma triple_config_error {A} (msg : string) (Qv : A -> Prop) :
  (forall s, I s ->
     Qs (Exit (ConfigError msg))
        (State (fs s) (trace s ++ [Print (msg +:+ nl +:+ refer_to_docs)]))) ->
  triple I (config_error msg) Qs Qv.
Proof.
  intros Hq s Hs. split; [now apply I_stable | now apply Hq].
Qed.

Lemma triple_guard (ok : bool) (m : M unit) (Qv : unit -> Prop) :
  (ok = true -> Qv tt) ->
  (ok = false -> triple I m Qs Qv) ->
  triple I (guard ok m) Qs Qv.
Proof. destruct ok; intros Ht Hf; [apply triple_ret | ]; auto. Qed.

Lemma triple_passed {B} (m : M unit) (k : unit -> M B) (Qv : B -> Prop) :
  triple I (k tt) Qs Qv -> triple I (bind (guard true m) k) Qs Qv.
Proof. intros Hk s Hs. exact (Hk s Hs). Qed.

(** A guard that fails on a computation that never returns cuts the
    rest of the script off. *)
Lemma triple_failed {B} (m : M unit) (k : unit -> M B) (Qv : B -> Prop) :
  triple I m Qs (fun _ => False) -> triple I (bind (guard false m) k) Qs Qv.
Proof.
  intros Hm. eapply triple_bind; [exact Hm | intros a []].
Qed.

Lemma triple_is_file (p : string) : triple I (is_file p) Qs any.
Proof. intros s Hs. now split. Qed.

Lemma triple_is_dir (p : string) : triple I (is_dir p) Qs any.
Proof. intros s Hs. now split. Qed.

Lemma triple_read_file (p : string) (Qv : string -> Prop) :
  (forall e s, I s -> Qs (Uncaught e) s) ->
  (forall s c, I s -> fs s !! p = Some (File c) -> Qv c) ->
  triple I (read_file p) Qs Qv.
Proof.
  intros He Hc s Hs. unfold read_file.
  destruct (fs s !! p) as [[c|]|] eqn:E; cbn; split; eauto.
Qed.

End LogicPrimitives.

Lemma triple_assoc {A B C} (I : state -> Prop) (Qs : stop -> state -> Prop)
    (m : M A) (f : A -> M B) (k : B -> M C) (Qv : C -> Prop) :
  triple I (bind m (fun a => bind (f a) k)) Qs Qv ->
  triple I (bind (bind m f) k) Qs Qv.
Proof.
  intros H s Hs. specialize (H s Hs). unfold bind in *.
  now destruct (m s) as [[e|a] s1].
Qed.

Lemma last_snoc_event (t : list event) (e : event) : last (t ++ [e]) = Some e.
Proof. apply last_snoc. Qed.

(** One rule application, chosen by the head of the computation. *)
Ltac triple_step :=
  lazymatch goal with
  | |- triple _ (bind (ret _) _) _ _ => apply triple_bind_ret; cbv beta
  | |- triple _ (bind (raise _) _) _ _ => apply triple_bind_raise
  | |- triple _ (bind (guard true _) _) _ _ => apply triple_passed
  | |- triple _ (bind (guard false _) _) _ _ => apply triple_failed
  | |- triple _ (bind (bind _ _) _) _ _ => apply triple_assoc
  | |- triple _ (bind _ _) _ _ =>
      eapply triple_bind with (Qa := any); [| intros ? _]
  | |- triple _ (ret _) _ _ => apply triple_ret
  | |- triple _ (exit _) _ _ => apply triple_exit
  | |- triple _ (raise _) _ _ => apply triple_raise
  | |- triple _ (lift _) _ _ => apply triple_lift; intros
  | |- triple _ (print _) _ _ => apply triple_print
  | |- triple _ (emit _) _ _ => apply triple_emit
  | |- triple _ (guard _ _) _ _ => apply triple_guard; intros
  | |- triple _ (is_file _) _ _ => eapply triple_weaken; [apply triple_is_file |]; intros
  | |- triple _ (is_dir _) _ _ => eapply triple_weaken; [apply triple_is_dir |]; intros
  | |- triple _ (read_file _) _ _ => apply triple_read_file; intros
  | |- triple _ (config_error _) _ _ => apply triple_config_error; [assumption |]
  | |- triple _ (has_key _ _ _) _ _ => unfold has_key
  | |- triple _ (get_key _ _ _) _ _ => unfold get_key
  | |- triple _ (match ?x with _ => _ end) _ _ => destruct x
  | |- triple _ (let _ := _ in _) _ _ => cbv zeta
  end.

(** What is left once the rules are applied: that the way of stopping is
    an allowed one. *)
Ltac triple_side :=
  intros;
  first
    [ exact Logic.I
    | intros ? ?; discriminate
    | intros ?; discriminate
    | intros ? [= <-]; first [reflexivity | apply last_snoc_event] ].

Ltac triple_auto :=
  repeat first
    [ discriminate
    | triple_step
    | assumption
    | exact Logic.I
    | reflexivity
    | solve [triple_side] ].

(** ** The pipeline up to the replacement map *)

Section Quiet.

Variable X : externals.
Variable h : host.
Variable Inv : state -> Prop.
Hypothesis Inv_stable : stable Inv.

Lemma image_to_data_url_quiet (Qs : stop -> state -> Prop) (path : string) :
  (forall e s, Qs (Uncaught e) s) ->
  triple Inv (image_to_data_url X path) Qs any.
Proof. intros HQ. unfold image_to_data_url. triple_auto. all: auto. Qed.

(** Whatever the configuration and the disk hold, [prepare] only reads,
    prints and compiles, and it announces every configuration error. *)
Lemma prepare_announces : triple Inv (prepare X h) announced any.
Proof.
  unfold prepare, check_dependencies, check_sources, read_config, get_theme,
    get_font, get_image, get_message, get_page, get_search, compile_styles,
    get_sections, convert_image.
  triple_auto.
  all: try (apply image_to_data_url_quiet; intros e s msg; discriminate).
  all: triple_auto.
Qed.

Lemma prepare_quiet : triple Inv (prepare X h) anyhow any.
Proof.
  intros s Hs. destruct (prepare_announces s Hs) as [HI _]. split; [exact HI |].
  now destruct (fst (prepare X h s)).
Qed.

End Quiet.

(** ** [str.replace] on templates made of pieces *)

Section Replace.

Lemma prefix_mismatch (p t x y : string) :
  mismatch p t = true -> String.prefix (p +:+ x) (t +:+ y) = false.
Proof.
  revert t. induction p as [|a p IH]; intros [|b t]; try discriminate.
  cbn [mismatch]. rewrite !append_cons. cbn [String.prefix].
  destruct (Ascii.eqb_spec a b) as [->|Hab].
  - intros Hm. destruct (ascii_dec b b); [now apply IH | reflexivity].
  - intros _. destruct (ascii_dec a b); [contradiction | reflexivity].
Qed.

Lemma mismatch_app (p t y : string) :
  mismatch p t = true -> mismatch p (t +:+ y) = true.
Proof.
  revert t. induction p as [|a p IH]; intros [|b t]; try discriminate.
  rewrite append_cons. cbn [mismatch].
  destruct (Ascii.eqb a b); [apply IH | reflexivity].
Qed.

Lemma prefix_app (p x : string) : String.prefix p (p +:+ x) = true.
Proof.
  induction p as [|a p IH]; [now destruct x |].
  rewrite append_cons. cbn [String.prefix].
  destruct (ascii_dec a a); [exact IH | contradiction].
Qed.

Lemma clean_cons (c : ascii) (s : string) :
  clean (String c s) = mismatch marker (String c s) && clean s.
Proof. reflexivity. Qed.

Lemma clean_app (s t : string) :
  clean s = true -> clean t = true -> clean (s +:+ t) = true.
Proof.
  intros Hs Ht. induction s as [|c s IH]; [exact Ht |].
  rewrite clean_cons in Hs. apply andb_prop in Hs as [Hm Hs].
  rewrite append_cons, clean_cons, <- append_cons.
  now rewrite (mismatch_app _ _ _ Hm), IH.
Qed.

Lemma clean_join (l : list string) :
  forallb clean l = true -> clean (join l) = true.
Proof.
  induction l as [|s l IH]; [reflexivity |].
  cbn [forallb]. intros [Hs Hl]%andb_prop.
  change (join (s :: l)) with (s +:+ join l). now apply clean_app; auto.
Qed.

(** A clean text holds no placeholder token. *)
Lemma clean_no_token (key s : string) :
  clean s = true -> Py.substr (token key) s = false.
Proof.
  induction s as [|c s IH]; [reflexivity |].
  rewrite clean_cons. intros [Hm Hs]%andb_prop.
  cbn [Py.substr].
  pose proof (prefix_mismatch marker (String c s) key EmptyString Hm) as Hp.
  rewrite append_empty_r in Hp. change (marker +:+ key) with (token key) in Hp.
  rewrite Hp. now apply IH.
Qed.

Lemma clean_has_no_token (s : string) : clean s = true -> has_token s = false.
Proof.
  intros Hs. unfold has_token.
  induction placeholder_keys as [|key keys IH]; [reflexivity |].
  cbn [existsb]. now rewrite clean_no_token, IH.
Qed.

Variables (key new : string).

Lemma replace_from_cons (c : ascii) (s : string) :
  Py.replace_from (token key) new 0 (String c s) =
  if String.prefix (token key) (String c s)
  then new +:+ Py.replace_from (token key) new (String.length (token key) - 1) s
  else String c (Py.replace_from (token key) new 0 s).
Proof. reflexivity. Qed.

Lemma replace_from_skip (t rest : string) :
  Py.replace_from (token key) new (String.length t) (t +:+ rest) =
  Py.replace_from (token key) new 0 rest.
Proof.
  induction t as [|c t IH]; [now destruct rest |].
  rewrite append_cons. exact IH.
Qed.

(** Nothing is replaced inside a clean text. *)
Lemma replace_from_clean (s rest : string) :
  clean s = true ->
  Py.replace_from (token key) new 0 (s +:+ rest) =
  s +:+ Py.replace_from (token key) new 0 rest.
Proof.
  induction s as [|c s IH]; [reflexivity |].
  rewrite clean_cons. intros [Hm Hs]%andb_prop.
  rewrite append_cons, replace_from_cons, <- append_cons.
  change (token key) with (marker +:+ key) at 1.
  rewrite (prefix_mismatch _ _ _ _ Hm).
  now rewrite IH, append_cons.
Qed.

(** The token itself is replaced. *)
Lemma replace_from_token (rest : string) :
  Py.replace_from (token key) new 0 (token key +:+ rest) =
  new +:+ Py.replace_from (token key) new 0 rest.
Proof.
  change (token key) with (String "B" ("UILDER:" +:+ key)) at 2.
  rewrite append_cons, replace_from_cons, <- append_cons.
  change (String "B" ("UILDER:" +:+ key)) with (token key).
  rewrite prefix_app. f_equal.
  change (String.length (token key) - 1)
    with (String.length ("UILDER:" +:+ key) - 0).
  rewrite Nat.sub_0_r. apply replace_from_skip.
Qed.

Lemma tokens_apart :
  forallb (fun a => forallb (fun b =>
             String.eqb a b || mismatch (token a) (token b))
           placeholder_keys) placeholder_keys = true.
Proof. reflexivity. Qed.

Lemma token_tails_clean :
  forallb (fun k => clean ("UILDER:" +:+ k)) placeholder_keys = true.
Proof. reflexivity. Qed.

Hypothesis key_known : In key placeholder_keys.

(** Another token is left alone. *)
Lemma replace_from_other (k rest : string) :
  In k placeholder_keys -> String.eqb key k = false ->
  Py.replace_from (token key) new 0 (token k +:+ rest) =
  token k +:+ Py.replace_from (token key) new 0 rest.
Proof.
  intros Hk Hne.
  pose proof tokens_apart as Ha.
  rewrite forallb_forall in Ha. specialize (Ha key key_known).
  rewrite forallb_forall in Ha. specialize (Ha k Hk).
  rewrite Hne in Ha. cbn [orb] in Ha.
  pose proof token_tails_clean as Hc.
  rewrite forallb_forall in Hc. specialize (Hc k Hk). cbv beta in Hc.
  change (token k) with (String "B" ("UILDER:" +:+ k)) in *.
  rewrite append_cons, replace_from_cons, <- append_cons.
  pose proof (prefix_mismatch _ _ EmptyString rest Ha) as Hp.
  rewrite append_empty_r in Hp. rewrite Hp.
  now rewrite replace_from_clean, append_cons.
Qed.

End Replace.

Section Pieces.

Lemma flatten_cons (p : piece) (ps : list piece) :
  flatten (p :: ps) = piece_text p +:+ flatten ps.
Proof. reflexivity. Qed.

Lemma key_known (k : string) :
  existsb (String.eqb k) placeholder_keys = true -> In k placeholder_keys.
Proof.
  intros (k' & Hin & Heq)%existsb_exists.
  apply String.eqb_eq in Heq. now subst.
Qed.

Lemma replace_pieces (key new : string) (ps : list piece) :
  In key placeholder_keys ->
  forallb piece_ok ps = true ->
  Py.replace (token key) new (flatten ps) = flatten (subst_piece key new <$> ps).
Proof.
  intros Hkey. change (Py.replace (token key) new (flatten ps))
    with (Py.replace_from (token key) new 0 (flatten ps)).
  induction ps as [|p ps IH]; [reflexivity |].
  cbn [forallb]. intros [Hp Hps]%andb_prop.
  rewrite fmap_cons, !flatten_cons. destruct p as [s|k]; cbn [piece_ok] in Hp.
  - cbn [subst_piece piece_text]. now rewrite replace_from_clean, IH.
  - cbn [subst_piece piece_text]. destruct (String.eqb_spec key k) as [<-|Hne].
    + now rewrite replace_from_token, IH.
    + rewrite replace_from_other, IH; auto using key_known.
      now apply String.eqb_neq.
Qed.

Lemma subst_piece_ok (key new : string) (ps : list piece) :
  clean new = true ->
  forallb piece_ok ps = true ->
  forallb piece_ok (subst_piece key new <$> ps) = true.
Proof.
  intros Hnew. induction ps as [|p ps IH]; [reflexivity |].
  cbn [forallb]. intros [Hp Hps]%andb_prop.
  rewrite fmap_cons. cbn [forallb]. rewrite IH by assumption.
  destruct p as [s|k]; cbn [subst_piece]; [now rewrite Hp |].
  destruct (String.eqb key k); [cbn [piece_ok]; now rewrite Hnew | now rewrite Hp].
Qed.

Lemma resolve_subst_piece (key new : string) (items : list (string * yaml))
    (p : piece) :
  resolve items (subst_piece key new p) = resolve ((key, YStr new) :: items) p.
Proof.
  destruct p as [s|k]; [reflexivity |]. cbn [subst_piece resolve assoc].
  rewrite (String.eqb_sym k key). now destruct (String.eqb key k).
Qed.

(** The loop computes the simultaneous filling-in. *)
Lemma substitute_pieces (items : list (string * yaml)) (ps : list piece) :
  Forall entry_ok items ->
  forallb piece_ok ps = true ->
  substitute items (flatten ps) = inr (fill items ps).
Proof.
  intros Hitems. revert ps.
  induction Hitems as [|[key value] items [Hkey Hval] _ IH]; intros ps Hps.
  - reflexivity.
  - cbn [fst snd] in *. destruct value as [[| | |new]| |]; try discriminate.
    cbn [substitute as_str ebind clean_value] in *.
    rewrite replace_pieces, IH by auto using subst_piece_ok.
    unfold fill. rewrite <- list_fmap_compose. do 2 f_equal.
    apply list_fmap_ext. intros i p _. apply resolve_subst_piece.
Qed.

Lemma assoc_elem_of (k : string) (v : yaml) (items : list (string * yaml)) :
  NoDup (fst <$> items) ->
  assoc k items = Some v <-> (k, v) ∈ items.
Proof.
  induction items as [|[k' v'] items IH]; cbn [assoc].
  - intros _. split; [discriminate | intros H; inversion H].
  - rewrite fmap_cons, NoDup_cons, elem_of_cons. cbn [fst].
    intros [Hnotin Hnd]. destruct (String.eqb_spec k k') as [->|Hne].
    + split; [intros [= ->]; now left |].
      intros [[= ->]|Hin]; [reflexivity |].
      exfalso. apply Hnotin. apply list_elem_of_fmap. now exists (k', v).
    + rewrite IH by assumption. split; [now right |].
      intros [[= -> ->]|Hin]; [contradiction | assumption].
Qed.

Lemma assoc_perm (k : string) (items items' : list (string * yaml)) :
  NoDup (fst <$> items) -> Permutation items items' ->
  assoc k items' = assoc k items.
Proof.
  intros Hnd Hperm.
  assert (Hnd' : NoDup (fst <$> items')) by now rewrite <- Hperm.
  destruct (assoc k items) as [v|] eqn:E.
  - apply assoc_elem_of; [assumption |]. rewrite <- Hperm.
    now apply assoc_elem_of.
  - destruct (assoc k items') as [v'|] eqn:E'; [| reflexivity].
    apply assoc_elem_of in E'; [| assumption]. rewrite <- Hperm in E'.
    apply assoc_elem_of in E'; [congruence | assumption].
Qed.

Lemma fill_perm (items items' : list (string * yaml)) (ps : list piece) :
  NoDup (fst <$> items) -> Permutation items items' ->
  fill items' ps = fill items ps.
Proof.
  intros Hnd Hperm. unfold fill. f_equal. apply list_fmap_ext.
  intros i [s|k] _; [reflexivity |]. cbn [resolve].
  now rewrite (assoc_perm k items items').
Qed.

(** With every placeholder bound to a clean text, the filled-in page
    holds no token. *)
Lemma fill_clean (items : list (string * yaml)) (ps : list piece) :
  fst <$> items = placeholder_keys ->
  Forall entry_ok items ->
  forallb piece_ok ps = true ->
  clean (fill items ps) = true.
Proof.
  intros Hkeys Hitems Hps. apply clean_join.
  induction ps as [|p ps IH]; [reflexivity |].
  cbn [forallb] in Hps. apply andb_prop in Hps as [Hp Hps].
  rewrite fmap_cons. cbn [forallb]. rewrite IH by assumption.
  rewrite andb_true_r. destruct p as [s|k]; [exact Hp |].
  cbn [piece_ok resolve] in *. apply key_known in Hp.
  rewrite <- Hkeys in Hp. apply list_elem_of_In, list_elem_of_fmap in Hp.
  destruct Hp as ([k' v] & -> & Hin). cbn [fst].
  assert (Hnd : NoDup (fst <$> items)).
  { rewrite Hkeys. unfold placeholder_keys. repeat constructor;
      rewrite ?elem_of_cons, ?elem_of_nil; intuition discriminate. }
  rewrite Forall_forall in Hitems.
  assert (Hv : entry_ok (k', v)).
  { apply Hitems. exact Hin. }
  apply (assoc_elem_of _ _ _ Hnd) in Hin. rewrite Hin.
  destruct Hv as [_ Hv]. cbn [snd] in Hv.
  now destruct v as [[| | |new]| |].
Qed.

End Pieces.

(** ** What a run leaves behind *)

Lemma file_writes_snoc (t : list event) (e : event) :
  is_write e = false -> file_writes (t ++ [e]) = file_writes t.
Proof.
  intros He. unfold file_writes. rewrite List.filter_app. cbn [List.filter].
  rewrite He. apply app_nil_r.
Qed.

Lemma bind_inr {A B} (m : M A) (k : A -> M B) (s s' : state) (b : B) :
  bind m k s = (inr b, s') ->
  exists a s1, m s = (inr a, s1) /\ k a s1 = (inr b, s').
Proof.
  unfold bind. destruct (m s) as [[e|a] s1]; [discriminate | eauto].
Qed.

Section Runs.

Variable X : externals.
Variable h : host.

(** Up to the replacement map the disk is only read. *)
Lemma prepare_no_write (s : state) :
  fs (snd (prepare X h s)) = fs s /\
  file_writes (trace (snd (prepare X h s))) = file_writes (trace s).
Proof.
  refine (proj1 (prepare_quiet X h
    (fun s' => fs s' = fs s /\ file_writes (trace s') = file_writes (trace s))
    _ s (conj eq_refl eq_refl))).
  intros s' e He [Hfs Hw]. cbn [fs trace]. now rewrite file_writes_snoc.
Qed.

(** The keys of the replacement map are the seven placeholder names. *)
Lemma prepare_keys (s s' : state) (items : list (string * yaml)) :
  prepare X h s = (inr items, s') -> fst <$> items = placeholder_keys.
Proof.
  unfold prepare. intros E.
  repeat (apply bind_inr in E as (? & ? & _ & E)).
  now injection E as <- _.
Qed.

(** The last stage never calls [sys.exit]; when it returns it has
    written the substituted template, after creating the distribution
    directory if there was none. *)
Lemma write_output_cases (items : list (string * yaml)) (s : state) :
  match write_output h items s with
  | (inl (Exit _), _) => False
  | (inl (Uncaught _), _) => True
  | (inr _, s') =>
      exists template content,
        fs s !! index_path h = Some (File template) /\
        substitute items template = inr content /\
        fs s' = <[html_output_file_path h := File content]>
                  (if dir_exists (fs s) (dist_dir h) then fs s
                   else <[dist_dir h := Dir]> (fs s)) /\
        trace s' = (trace s
                    ++ (if dir_exists (fs s) (dist_dir h) then []
                        else [Mkdir (dist_dir h)])
                    ++ [WriteFile (html_output_file_path h) content;
                        Print (done_message h)])%list
  end.
Proof.
  unfold write_output.
  generalize (index_path h), (dist_dir h), (html_output_file_path h),
    (done_message h).
  intros ip dd op dm.
  unfold bind, read_file, lift, is_dir, guard, mkdir, write_file,
    print, emit, ret, raise, dir_exists.
  destruct (fs s !! ip) as [[template|]|] eqn:Ht; [| exact Logic.I ..].
  destruct (substitute items template) as [e|content] eqn:Hs; [exact Logic.I |].
  cbn.
  destruct (fs s !! dd) as [[c|]|] eqn:Hd; cbn; rewrite ?Hd; cbn.
  - exact Logic.I.
  - destruct (fs s !! op) as [[c|]|]; cbn; [| exact Logic.I |];
      exists template, content; rewrite <- ?app_assoc; auto.
  - destruct (<[dd := Dir]> (fs s) !! op) as [[c|]|]; cbn; [| exact Logic.I |];
      exists template, content; rewrite <- ?app_assoc; auto.
Qed.

(** A run that ends in [sys.exit] has written nothing. *)
Lemma exit_before_writing (s s' : state) (f : failure) :
  build X h s = (inl (Exit f), s') ->
  fs s' = fs s /\ file_writes (trace s') = file_writes (trace s).
Proof.
  unfold build, bind. pose proof (prepare_no_write s) as Hp.
  destruct (prepare X h s) as [[e|items] s1]; cbn [fst snd] in Hp.
  - now intros [= _ <-].
  - pose proof (write_output_cases items s1) as Hw. unfold build in *. intros E.
    rewrite E in Hw. contradiction.
Qed.

End Runs.

(** ** The image inliner *)

(** C8. For an image file whose MIME type is recognised, the function
    returns [data:<mimetype>;base64,<payload>], the payload decodes to
    exactly the bytes of the file, and it is not empty unless the file is;
    a PNG file is the case where the type is [image/png]. *)
Theorem image_to_data_url_encodes (X : externals) (path mimetype bytes : string)
    (s : state) :
  guess_type X path = Some mimetype ->
  fs s !! path = Some (File bytes) ->
  image_to_data_url X path s =
    (inr ("data:" +:+ mimetype +:+ ";base64," +:+ Base64.b64encode bytes), s)
  /\ Base64.b64decode (Base64.b64encode bytes) = Some bytes
  /\ (bytes <> EmptyString -> Base64.b64encode bytes <> EmptyString).
Proof.
  intros Hm Hf. split; [| split].
  - unfold image_to_data_url, bind, read_file, ret. now rewrite Hm, Hf.
  - apply Base64Facts.b64decode_b64encode.
  - apply Base64Facts.b64encode_nonempty.
Qed.

Lemma image_to_data_url_encodes_png :
  image_to_data_url (Demo.ext Demo.config) "pic.png" (Demo.start EmptyString) =
    (inr "data:image/png;base64,YWJj", Demo.start EmptyString)
  /\ Base64.b64decode (Base64.b64encode "abc") = Some "abc"
  /\ ("abc" <> EmptyString -> Base64.b64encode "abc" <> EmptyString).
Proof.
  exact (image_to_data_url_encodes (Demo.ext Demo.config) "pic.png" "image/png"
           "abc" (Demo.start EmptyString) eq_refl eq_refl).
Defined.

(** C9. For an image file whose MIME type is not recognised, the result
    starts with the literal text [data:None;base64,]: the missing type is
    printed as the word [None]. *)
Theorem image_to_data_url_unknown_type (X : externals) (path bytes : string)
    (s : state) :
  guess_type X path = None ->
  fs s !! path = Some (File bytes) ->
  image_to_data_url X path s =
    (inr ("data:None;base64," +:+ Base64.b64encode bytes), s).
Proof.
  intros Hm Hf.
  unfold image_to_data_url, bind, read_file, ret. now rewrite Hm, Hf.
Qed.

Lemma image_to_data_url_unknown_type_bin :
  image_to_data_url (Demo.ext Demo.config) "logo.bin" (Demo.start EmptyString) =
    (inr "data:None;base64,YWJj", Demo.start EmptyString).
Proof.
  exact (image_to_data_url_unknown_type (Demo.ext Demo.config) "logo.bin" "abc"
           (Demo.start EmptyString) eq_refl eq_refl).
Defined.

(** ** Links without an icon or a target *)

Lemma getitem_contains (v x : yaml) (key : string) :
  Py.getitem v key = inr x -> Py.contains key v = inr true.
Proof.
  destruct v as [k|l|d]; try discriminate. cbn [Py.getitem Py.contains].
  intros Hget. f_equal.
  induction d as [|[k v] d IH]; [discriminate |].
  cbn [Py.dict_get existsb fst] in *.
  destruct (Py.is_key key k); [reflexivity |]. now apply IH.
Qed.

(** A link without a target does not always give a [KeyError]: when a
    link before it is a text, indexing that text raises [TypeError]
    first. *)
Lemma missing_link_field_other_exception :
  ~ (forall (X : externals) (config : yaml) (sections : list (scalar * yaml))
            (s : state),
       Py.getitem config "sections" = inr (YDict sections) ->
       existsb section_lacks_field sections = true ->
       exists k, fst (get_sections X config s) = inl (Uncaught (KeyError k))).
Proof.
  intros H.
  destruct (H (Demo.ext Demo.config)
              (YDict [(SStr "sections", YDict Cases.text_link)])
              Cases.text_link (Demo.start EmptyString) eq_refl eq_refl)
    as [k Hk].
  vm_compute in Hk. discriminate.
Qed.

(** C10 (amended). When some link of some section is a mapping without
    an [icon] or without a [url] entry, the section renderer stops with
    an uncaught exception, after the line announcing the rendering and
    not through the configuration-error exit; when all sections and links
    are mappings, the exception is the [KeyError] of the missing field. *)
Theorem missing_link_field_raises (X : externals) (config : yaml)
    (sections : list (scalar * yaml)) (s : state) :
  Py.getitem config "sections" = inr (YDict sections) ->
  existsb section_lacks_field sections = true ->
  exists e,
    get_sections X config s =
      (inl (Uncaught e),
       State (fs s) (trace s ++ [Print (nl +:+ "Generating sections...")]))
    /\ (well_shaped sections = true -> e = KeyError "icon" \/ e = KeyError "url").
Proof.
  intros Hget Hlack.
  destruct (sections_loop_lacking X sections EmptyString 0 Hlack) as [e He].
  exists e. split.
  - unfold get_sections, bind. rewrite (getitem_contains _ _ _ Hget), Hget.
    cbn. now rewrite He.
  - intros Hshape. eapply sections_loop_key_error; eauto.
Qed.

Lemma missing_link_field_raises_demo :
  exists e,
    get_sections (Demo.ext Demo.config)
      (YDict [(SStr "sections", YDict Demo.lacking)]) (Demo.start EmptyString) =
      (inl (Uncaught e),
       State (fs (Demo.start EmptyString))
         (trace (Demo.start EmptyString) ++ [Print (nl +:+ "Generating sections...")]))
    /\ (well_shaped Demo.lacking = true -> e = KeyError "icon" \/ e = KeyError "url").
Proof.
  exact (missing_link_field_raises (Demo.ext Demo.config)
           (YDict [(SStr "sections", YDict Demo.lacking)]) Demo.lacking
           (Demo.start EmptyString) eq_refl eq_refl).
Defined.

(** ** Exit statuses *)



(** ** Placeholder substitution *)

(** A value that is itself a token is substituted or not depending on
    the order of the passes. *)
Lemma substitution_order_matters :
  ~ (forall (template v1 v2 v3 v4 v5 v6 v7 : string)
            (items' : list (string * yaml)),
       Permutation
         (replacement_map (YStr v1) (YStr v2) (YStr v3) (YStr v4) (YStr v5)
            (YStr v6) (YStr v7)) items' ->
       substitute items' template =
       substitute
         (replacement_map (YStr v1) (YStr v2) (YStr v3) (YStr v4) (YStr v5)
            (YStr v6) (YStr v7)) template).
Proof.
  intros H.
  specialize (H "BUILDER:LANG" "BUILDER:TITLE" EmptyString "x" EmptyString
                EmptyString EmptyString EmptyString _ (Permutation_rev _)).
  vm_compute in H. discriminate.
Qed.

Lemma placeholder_keys_NoDup : NoDup placeholder_keys.
Proof.
  unfold placeholder_keys.
  repeat constructor; rewrite ?elem_of_cons, ?elem_of_nil; intuition discriminate.
Qed.

Lemma entries_ok (items : list (string * yaml)) :
  fst <$> items = placeholder_keys ->
  forallb (fun kv => clean_value (snd kv)) items = true ->
  Forall entry_ok items.
Proof.
  intros Hkeys Hclean. apply Forall_forall. intros kv Hin. split.
  - rewrite <- Hkeys. apply list_elem_of_In, list_elem_of_fmap. now exists kv.
  - rewrite forallb_forall in Hclean. now apply Hclean, list_elem_of_In.
Qed.

(** C4 (amended). When the template is a sequence of placeholder tokens
    and of texts that are clean (no position of a text starts the marker
    [BUILDER:] or a part of it that runs to the end of the text), and the
    seven values are clean texts, the substitution passes applied in any
    order of the replacement map give the same page: each token replaced
    by its value. *)
Theorem substitute_any_order (ps : list piece) (v1 v2 v3 v4 v5 v6 v7 : string)
    (items' : list (string * yaml)) :
  forallb piece_ok ps = true ->
  forallb clean [v1; v2; v3; v4; v5; v6; v7] = true ->
  Permutation
    (replacement_map (YStr v1) (YStr v2) (YStr v3) (YStr v4) (YStr v5)
       (YStr v6) (YStr v7)) items' ->
  substitute items' (flatten ps) =
  inr (fill (replacement_map (YStr v1) (YStr v2) (YStr v3) (YStr v4) (YStr v5)
               (YStr v6) (YStr v7)) ps).
Proof.
  intros Hps Hvs Hperm.
  set (items := replacement_map _ _ _ _ _ _ _) in *.
  assert (Hok : Forall entry_ok items).
  { apply entries_ok; [reflexivity |]. cbn [forallb] in Hvs.
    repeat (apply andb_prop in Hvs as [? Hvs]).
    cbn. repeat (apply andb_true_intro; split); assumption. }
  rewrite substitute_pieces; [| now rewrite <- Hperm | assumption].
  f_equal. apply fill_perm; [apply placeholder_keys_NoDup | assumption].
Qed.

Lemma substitute_any_order_demo :
  substitute
    (rev (replacement_map (YStr "en") (YStr "body{}") (YStr "Home")
            (YStr "data:image/png;base64,YWJj") (YStr "Hi") (YStr "<section/>")
            (YStr "Search")))
    (flatten Demo.pieces) =
  inr (fill (replacement_map (YStr "en") (YStr "body{}") (YStr "Home")
               (YStr "data:image/png;base64,YWJj") (YStr "Hi") (YStr "<section/>")
               (YStr "Search")) Demo.pieces).
Proof.
  exact (substitute_any_order Demo.pieces "en" "body{}" "Home"
           "data:image/png;base64,YWJj" "Hi" "<section/>" "Search" _
           eq_refl eq_refl (Permutation_rev _)).
Defined.

(** ** The output file *)

(** With a search placeholder that is itself the token of the language,
    the run completes and the written page still holds that token. *)
Lemma unresolved_token_in_output :
  all_required_present Demo.leaky = true /\
  fst (build (Demo.ext Demo.leaky) Demo.here
         (Demo.start (flatten Demo.pieces))) = inr tt /\
  exists content,
    fs (snd (build (Demo.ext Demo.leaky) Demo.here
               (Demo.start (flatten Demo.pieces))))
      !! "/site/dist/index.html" = Some (File content)
    /\ has_token content = true.
Proof.
  split; [reflexivity |]. split; [vm_compute; reflexivity |].
  eexists. split; vm_compute; reflexivity.
Qed.

(** C6 (amended). A run that completes has written exactly one file, at
    the fixed path under the distribution directory, after creating that
    directory if it was absent and whatever the file held before; its
    content is the page template with the replacement map substituted
    pass by pass.  The content holds none of the seven tokens when the
    template is made of tokens and clean texts and the values of the map
    are clean texts. *)
Theorem build_writes_the_page (X : externals) (h : host) (s s' : state) :
  build X h s = (inr tt, s') ->
  exists items s1 template content,
    prepare X h s = (inr items, s1) /\
    fs s !! index_path h = Some (File template) /\
    substitute items template = inr content /\
    file_writes (trace s') =
      (file_writes (trace s)
       ++ (if dir_exists (fs s) (dist_dir h) then [] else [Mkdir (dist_dir h)])
       ++ [WriteFile (html_output_file_path h) content])%list /\
    fs s' = <[html_output_file_path h := File content]>
              (if dir_exists (fs s) (dist_dir h) then fs s
               else <[dist_dir h := Dir]> (fs s)) /\
    (forall ps,
        template = flatten ps ->
        forallb piece_ok ps = true ->
        forallb (fun kv => clean_value (snd kv)) items = true ->
        has_token content = false).
Proof.
  intros E. unfold build in E. apply bind_inr in E as (items & s1 & Hp & Hw).
  pose proof (prepare_no_write X h s) as [Hfs Htr]. rewrite Hp in Hfs, Htr.
  cbn [snd] in Hfs, Htr.
  pose proof (write_output_cases h items s1) as Hc. rewrite Hw in Hc.
  destruct Hc as (template & content & Ht & Hs & Hfs' & Htr').
  rewrite Hfs in Ht, Hfs', Htr'.
  exists items, s1, template, content. repeat split; try assumption.
  - rewrite Htr'. unfold file_writes. rewrite !List.filter_app.
    fold (file_writes (trace s1)). rewrite Htr. f_equal.
    now destruct (dir_exists (fs s) (dist_dir h)).
  - intros ps -> Hps Hclean.
    pose proof (prepare_keys X h s s1 items Hp) as Hkeys.
    pose proof (entries_ok items Hkeys Hclean) as Hok.
    rewrite substitute_pieces in Hs by assumption. injection Hs as <-.
    now apply clean_has_no_token, fill_clean.
Qed.

Lemma build_writes_the_page_demo :
  exists items s1 template content,
    prepare (Demo.ext Demo.config) Demo.here (Demo.start (flatten Demo.pieces)) =
      (inr items, s1) /\
    fs (Demo.start (flatten Demo.pieces)) !! index_path Demo.here =
      Some (File template) /\
    substitute items template = inr content /\
    file_writes
      (trace (snd (build (Demo.ext Demo.config) Demo.here
                     (Demo.start (flatten Demo.pieces))))) =
      (file_writes (trace (Demo.start (flatten Demo.pieces)))
       ++ (if dir_exists (fs (Demo.start (flatten Demo.pieces)))
                (dist_dir Demo.here)
           then [] else [Mkdir (dist_dir Demo.here)])
       ++ [WriteFile (html_output_file_path Demo.here) content])%list /\
    fs (snd (build (Demo.ext Demo.config) Demo.here
               (Demo.start (flatten Demo.pieces)))) =
      <[html_output_file_path Demo.here := File content]>
        (if dir_exists (fs (Demo.start (flatten Demo.pieces))) (dist_dir Demo.here)
         then fs (Demo.start (flatten Demo.pieces))
         else <[dist_dir Demo.here := Dir]>
                (fs (Demo.start (flatten Demo.pieces)))) /\
    (forall ps,
        template = flatten ps ->
        forallb piece_ok ps = true ->
        forallb (fun kv => clean_value (snd kv)) items = true ->
        has_token content = false).
Proof.
  apply (build_writes_the_page (Demo.ext Demo.config) Demo.here
           (Demo.start (flatten Demo.pieces))).
  vm_compute. reflexivity.
Defined.

(** ** The stylesheet compiler *)

(** C7. The source handed to the compiler is the theme stylesheet, a
    newline, the font stylesheet, a newline and the base stylesheet; when
    the compiler reports an error, its text is printed, the process exits
    with status 7, and a run that ends this way has written nothing. *)
Theorem compile_styles_spec (X : externals) (h : host)
    (theme_file_path font_file_path theme font base : string) (s : state) :
  fs s !! theme_file_path = Some (File theme) ->
  fs s !! font_file_path = Some (File font) ->
  fs s !! style_path h = Some (File base) ->
  compile_styles X h theme_file_path font_file_path s =
    match sass_compile X (theme +:+ nl +:+ font +:+ nl +:+ base) with
    | inr compiled_css =>
        (inr compiled_css,
         State (fs s)
           (trace s ++ [Compile (theme +:+ nl +:+ font +:+ nl +:+ base)]))
    | inl e =>
        (inl (Exit CompileFailed),
         State (fs s)
           (trace s ++ [Compile (theme +:+ nl +:+ font +:+ nl +:+ base);
                        Print (nl +:+ "Failed to compile your theme/font:");
                        Print e]))
    end
  /\ exit_code CompileFailed = 7%Z
  /\ (forall s0 s1,
        build X h s0 = (inl (Exit CompileFailed), s1) ->
        fs s1 = fs s0 /\ file_writes (trace s1) = file_writes (trace s0)).
Proof.
  intros Ht Hf Hb. split; [| split; [reflexivity |]].
  - unfold compile_styles, bind, read_file, print, emit, exit, ret.
    rewrite Ht, Hf, Hb. cbn [fs trace].
    rewrite !append_assoc.
    destruct (sass_compile X _); cbn [fs trace]; rewrite <- ?app_assoc;
      reflexivity.
  - intros s0 s1. apply exit_before_writing.
Qed.

Lemma compile_styles_spec_demo :
  compile_styles Demo.failing Demo.here "/site/themes/dark/theme.scss"
    "/site/fonts/mono/font.scss" (Demo.start EmptyString) =
    match sass_compile Demo.failing
            ("$bg: black;" +:+ nl +:+ "$font: monospace;" +:+ nl +:+ "body{}") with
    | inr compiled_css =>
        (inr compiled_css,
         State (fs (Demo.start EmptyString))
           (trace (Demo.start EmptyString)
            ++ [Compile ("$bg: black;" +:+ nl +:+ "$font: monospace;" +:+ nl
                         +:+ "body{}")]))
    | inl e =>
        (inl (Exit CompileFailed),
         State (fs (Demo.start EmptyString))
           (trace (Demo.start EmptyString)
            ++ [Compile ("$bg: black;" +:+ nl +:+ "$font: monospace;" +:+ nl
                         +:+ "body{}");
                Print (nl +:+ "Failed to compile your theme/font:");
                Print e]))
    end
  /\ exit_code CompileFailed = 7%Z
  /\ (forall s0 s1,
        build Demo.failing Demo.here s0 = (inl (Exit CompileFailed), s1) ->
        fs s1 = fs s0 /\ file_writes (trace s1) = file_writes (trace s0)).
Proof.
  exact (compile_styles_spec Demo.failing Demo.here "/site/themes/dark/theme.scss"
           "/site/fonts/mono/font.scss" "$bg: black;" "$font: monospace;" "body{}"
           (Demo.start EmptyString) eq_refl eq_refl eq_refl).
Defined.

(** ** Configuration keys *)

(** C1, at a configuration that has every required key-path except
    [look/font]: the presence test before the font lookup asks for
    ["theme"], so the lookup itself raises [KeyError], after the theme
    line was printed and without any message about [look/font] or any
    configuration-error exit.  Taking any other required key-path out of
    the complete configuration instead ends in the configuration error
    that names it, with status 3 and nothing written. *)
Theorem missing_font_key_is_uncaught :
  present Demo.no_font ["look"; "font"] = false /\
  List.filter (fun p => negb (present Demo.no_font p)) required_paths =
    [["look"; "font"]] /\
  fst (build (Demo.ext Demo.no_font) Demo.here (Demo.start EmptyString)) =
    inl (Uncaught (KeyError "font")) /\
  trace (snd (build (Demo.ext Demo.no_font) Demo.here (Demo.start EmptyString))) =
    [Print ("Using theme:" +:+ nl +:+ tab
            +:+ "dark (/site/themes/dark/theme.scss)")] /\
  List.filter
    (fun p =>
       negb (reports_missing p
               (fst (build (Demo.ext (drop_path p Demo.config)) Demo.here
                       (Demo.start EmptyString)))
             && bool_decide
                  (file_writes
                     (trace (snd (build (Demo.ext (drop_path p Demo.config))
                                    Demo.here (Demo.start EmptyString)))) = [])))
    required_paths = [["look"; "font"]] /\
  exit_code (ConfigError (key_not_found "look/font")) = 3%Z.
Proof. repeat split; vm_compute; reflexivity. Qed.

(** *** Present keys *)

Lemma present_one (config : yaml) (a : string) :
  present config [a] = true -> exists v, Py.getitem config a = inr v.
Proof.
  unfold present. cbn [lookup_path].
  destruct (Py.getitem config a) as [e|v]; [discriminate | eauto].
Qed.

Lemma present_two (config : yaml) (a b : string) :
  present config [a; b] = true ->
  exists sub v, Py.getitem config a = inr sub /\ Py.getitem sub b = inr v.
Proof.
  unfold present. cbn [lookup_path].
  destruct (Py.getitem config a) as [e|sub]; [discriminate |].
  destruct (Py.getitem sub b) as [e|v] eqn:Hb; [discriminate |].
  intros _. now exists sub, v.
Qed.

Lemma contains_present (config : yaml) (a : string) :
  present config [a] = true -> lift (Py.contains a config) = ret true.
Proof.
  intros [v Hv]%present_one. now rewrite (getitem_contains _ _ _ Hv).
Qed.

Lemma has_key_present (config : yaml) (a b : string) :
  present config [a; b] = true -> has_key config a b = ret true.
Proof.
  intros (sub & v & Ha & Hb)%present_two. unfold has_key.
  rewrite Ha. cbn [ebind]. now rewrite (getitem_contains _ _ _ Hb).
Qed.

Lemma get_key_present (config : yaml) (a b : string) :
  present config [a; b] = true -> exists v, get_key config a b = ret v.
Proof.
  intros (sub & v & Ha & Hb)%present_two. exists v. unfold get_key.
  rewrite Ha. cbn [ebind]. now rewrite Hb.
Qed.

Lemma required_present (config : yaml) (path : list string) :
  all_required_present config = true ->
  In path required_paths ->
  present config path = true.
Proof. unfold all_required_present. rewrite forallb_forall. auto. Qed.

Section Validated.

Variable X : externals.
Variable h : host.
Variable s : state.
Variables (text : string) (config sections : yaml).
Hypothesis config_file : fs s !! config_path h = Some (File text).
Hypothesis config_loaded : safe_load X text = inr config.
Hypothesis config_complete : all_required_present config = true.
Hypothesis sections_found : Py.getitem config "sections" = inr sections.
Hypothesis sections_dict : Py.is_dict sections = true.

Lemma same_disk_stable : stable (same_disk s).
Proof. now intros st e _ Hst. Qed.

Lemma key_present (path : list string) :
  In path required_paths -> present config path = true.
Proof. now apply required_present. Qed.

Lemma read_config_validated :
  triple (same_disk s) (read_config X h) not_config_error (fun c => c = config).
Proof.
  pose proof same_disk_stable as Hst.
  unfold read_config.
  eapply triple_bind with (Qa := fun t => t = text).
  - apply triple_read_file; [intros e st _ msg; discriminate |].
    intros st c Hst' Hc. rewrite Hst', config_file in Hc. congruence.
  - intros t ->. rewrite config_loaded.
    change (lift (inr config)) with (ret (A := yaml) config).
    apply triple_bind_ret.
    rewrite contains_present by (apply key_present; cbn; tauto).
    triple_auto.
Qed.

Lemma get_sections_validated :
  triple (same_disk s) (get_sections X config) not_config_error any.
Proof.
  pose proof same_disk_stable as Hst.
  unfold get_sections.
  rewrite contains_present by (apply key_present; cbn; tauto).
  apply triple_bind_ret.
  eapply triple_bind with (Qa := any); [triple_auto | intros _ _].
  rewrite sections_found.
  change (lift (inr sections)) with (ret (A := yaml) sections).
  apply triple_bind_ret. rewrite sections_dict.
  triple_auto.
Qed.

(** With every required key-path present and [sections] a mapping, no
    stage up to the replacement map takes the configuration-error
    exit. *)
Lemma prepare_validated : triple (same_disk s) (prepare X h) not_config_error any.
Proof.
  pose proof same_disk_stable as Hst.
  assert (Hu : forall e st, not_config_error (Uncaught e) st)
    by (intros e st msg; discriminate).
  unfold prepare.
  eapply triple_bind with (Qa := any);
    [unfold check_dependencies; triple_auto | intros _ _].
  eapply triple_bind with (Qa := any);
    [unfold check_sources; triple_auto | intros _ _].
  eapply triple_bind with (Qa := fun c => c = config);
    [apply read_config_validated | intros c ->].
  unfold get_theme, get_font, get_image, get_message, get_page, get_search,
    compile_styles, convert_image.
  rewrite !has_key_present by (apply key_present; cbn; tauto).
  rewrite !contains_present by (apply key_present; cbn; tauto).
  destruct (get_key_present config "look" "theme") as [v1 ->];
    [apply key_present; cbn; tauto |].
  destruct (get_key_present config "look" "font") as [v2 ->];
    [apply key_present; cbn; tauto |].
  destruct (get_key_present config "look" "image") as [v3 ->];
    [apply key_present; cbn; tauto |].
  destruct (get_key_present config "look" "message") as [v4 ->];
    [apply key_present; cbn; tauto |].
  destruct (get_key_present config "page" "lang") as [v5 ->];
    [apply key_present; cbn; tauto |].
  destruct (get_key_present config "page" "title") as [v6 ->];
    [apply key_present; cbn; tauto |].
  destruct (get_key_present config "search" "placeholder") as [v7 ->];
    [apply key_present; cbn; tauto |].
  triple_auto.
  all: try apply get_sections_validated.
  all: try (apply image_to_data_url_quiet; assumption).
  all: triple_auto.
Qed.

End Validated.

(** A configuration with every required key-path whose [sections] entry
    is a text is rejected with the configuration-error exit. *)
Lemma sections_type_is_checked :
  all_required_present Demo.flat_sections = true /\
  config_error_exit
    (fst (build (Demo.ext Demo.flat_sections) Demo.here (Demo.start EmptyString)))
  = true.
Proof. split; [reflexivity | vm_compute; reflexivity]. Qed.

Lemma validated_never_config_error (X : externals) (h : host) (s : state)
    (text : string) (config sections : yaml) :
  fs s !! config_path h = Some (File text) ->
  safe_load X text = inr config ->
  all_required_present config = true ->
  Py.getitem config "sections" = inr sections ->
  Py.is_dict sections = true ->
  forall msg, fst (build X h s) <> inl (Exit (ConfigError msg)).
Proof.
  intros Hfile Hload Hall Hsec Hdict msg.
  destruct (prepare_validated X h s text config sections Hfile Hload Hall Hsec
              Hdict s eq_refl) as [_ Hp].
  unfold build, bind.
  destruct (prepare X h s) as [[e|items] s1]; cbn [fst] in *.
  - intros [= ->]. now apply (Hp msg).
  - pose proof (write_output_cases h items s1) as Hw.
    destruct (write_output h items s1) as [[[f|e]|u] s2]; cbn [fst];
      [contradiction | discriminate | discriminate].
Qed.

(** C5 (amended). Apart from [sections], which must be a mapping, the
    values at the required key-paths are not checked: when every required
    key-path is present and [sections] is a mapping, the run never takes
    the configuration-error exit, whatever the other values are. *)
Theorem present_keys_pass_validation (X : externals) (h : host) (s : state)
    (text : string) (config sections : yaml) :
  fs s !! config_path h = Some (File text) ->
  safe_load X text = inr config ->
  all_required_present config = true ->
  Py.getitem config "sections" = inr sections ->
  Py.is_dict sections = true ->
  config_error_exit (fst (build X h s)) = false.
Proof.
  intros Hfile Hload Hall Hsec Hdict.
  pose proof (validated_never_config_error X h s text config sections
                Hfile Hload Hall Hsec Hdict) as Hn.
  destruct (fst (build X h s)) as [[f|e]|u]; try reflexivity.
  destruct f; try reflexivity. now destruct (Hn msg).
Qed.

Lemma present_keys_pass_validation_demo :
  config_error_exit
    (fst (build (Demo.ext Demo.config) Demo.here (Demo.start EmptyString)))
  = false.
Proof.
  exact (present_keys_pass_validation (Demo.ext Demo.config) Demo.here
           (Demo.start EmptyString) "look: ..." Demo.config Demo.sections
           eq_refl eq_refl eq_refl eq_refl eq_refl).
Defined.

(** * Further properties of the script *)

(** ** Running the script stage by stage *)

Lemma bind_eq {A B} (m : M A) (k : A -> M B) (s s1 : state) (a : A) :
  m s = (inr a, s1) -> bind m k s = k a s1.
Proof. intros H. unfold bind. now rewrite H. Qed.

Lemma bind_stop {A B} (m : M A) (k : A -> M B) (s s1 : state) (e : stop) :
  m s = (inl e, s1) -> bind m k s = (inl e, s1).
Proof. intros H. unfold bind. now rewrite H. Qed.

Lemma build_stop (X : externals) (h : host) (s s1 : state) (e : stop) :
  prepare X h s = (inl e, s1) -> build X h s = (inl e, s1).
Proof. apply bind_stop. Qed.

Lemma snoc_snoc {A} (l : list A) (a b : A) :
  ((l ++ [a]) ++ [b] = l ++ [a; b])%list.
Proof. now rewrite <- app_assoc. Qed.

Lemma early_checks_pass (h : host) (s : state) :
  early_failure h (fs s) = None ->
  check_dependencies h s = (inr tt, s) /\ check_sources h s = (inr tt, s).
Proof.
  unfold early_failure, check_dependencies, check_sources, file_exists, bind,
    guard, is_file, ret.
  destruct (yaml_installed h); [| discriminate].
  destruct (sass_installed h); [| discriminate]. cbn [negb].
  destruct (fs s !! index_path h) as [[?|]|]; try discriminate.
  destruct (fs s !! style_path h) as [[?|]|]; try discriminate.
  destruct (fs s !! config_path h) as [[?|]|]; try discriminate.
  now split.
Qed.

(** Once the early checks pass and the configuration file parses to a
    value that has ["look"], the script goes on from line 71 with that
    value in an unchanged state. *)
Lemma start_run {B} (X : externals) (h : host) (s : state) (text : string)
    (config : yaml) (k : yaml -> M B) :
  early_failure h (fs s) = None ->
  fs s !! config_path h = Some (File text) ->
  safe_load X text = inr config ->
  Py.contains "look" config = inr true ->
  bind (check_dependencies h)
    (fun _ => bind (check_sources h) (fun _ => bind (read_config X h) k)) s =
  k config s.
Proof.
  intros [Hd Hs]%early_checks_pass Hfile Hload Hlook.
  rewrite (bind_eq _ _ _ _ _ Hd), (bind_eq _ _ _ _ _ Hs).
  apply bind_eq.
  unfold read_config, bind, read_file, lift, guard, ret.
  now rewrite Hfile, Hload, Hlook.
Qed.

Lemma lookup_two (config v : yaml) (a b : string) :
  lookup_path [a; b] config = Some v ->
  has_key config a b = ret true /\ get_key config a b = ret v /\
  Py.contains a config = inr true.
Proof.
  cbn [lookup_path]. unfold has_key, get_key.
  destruct (Py.getitem config a) as [e|sub] eqn:Ha; [discriminate |].
  destruct (Py.getitem sub b) as [e|x] eqn:Hb; [discriminate |].
  intros [= ->]. cbn [ebind].
  now rewrite (getitem_contains _ _ _ Hb), (getitem_contains _ _ _ Ha), Hb.
Qed.

(** ** The early checks *)

(** X3. The first failing check among the two imports and the three required
    files decides the run: its line is the only one printed and its exit
    is taken, whatever else the disk and the configuration hold. *)
Theorem early_exit (X : externals) (h : host) (s : state) (f : failure)
    (line : string) :
  early_failure h (fs s) = Some (f, line) ->
  build X h s = (inl (Exit f), State (fs s) (trace s ++ [Print line])).
Proof.
  intros H. apply build_stop. revert H.
  unfold prepare, early_failure, check_dependencies, check_sources, file_exists,
    bind, guard, is_file, print, emit, exit, ret.
  destruct (yaml_installed h); [| now intros [= <- <-]].
  destruct (sass_installed h); [| now intros [= <- <-]]. cbn [negb].
  destruct (fs s !! index_path h) as [[?|]|]; try now intros [= <- <-].
  destruct (fs s !! style_path h) as [[?|]|]; try now intros [= <- <-].
  destruct (fs s !! config_path h) as [[?|]|]; now intros [= <- <-].
Qed.

Lemma early_exit_no_style :
  build (Demo.ext Demo.config) Demo.here
    (State (delete "/site/build/sources/style.scss" (Demo.disk EmptyString)) []) =
  (inl (Exit (NoSourceFile "/site/build/sources/style.scss")),
   State (delete "/site/build/sources/style.scss" (Demo.disk EmptyString))
     ([] ++ [Print (source_missing "/site/build/sources/style.scss")])).
Proof.
  exact (early_exit (Demo.ext Demo.config) Demo.here
           (State (delete "/site/build/sources/style.scss" (Demo.disk EmptyString)) [])
           (NoSourceFile "/site/build/sources/style.scss")
           (source_missing "/site/build/sources/style.scss") eq_refl).
Defined.

(** ** Configurations that are not mappings *)

Lemma contains_error (key : string) (v : yaml) (e : exn) :
  Py.contains key v = inl e -> e = TypeError.
Proof. destruct v as [[]| |]; cbn; congruence. Qed.

Lemma getitem_non_dict (v : yaml) (key : string) :
  Py.is_dict v = false -> Py.getitem v key = inl TypeError.
Proof. now destruct v. Qed.

Lemma read_config_run (X : externals) (h : host) (s : state) (text : string)
    (config : yaml) :
  fs s !! config_path h = Some (File text) ->
  safe_load X text = inr config ->
  read_config X h s =
  match Py.contains "look" config with
  | inl e => (inl (Uncaught e), s)
  | inr true => (inr config, s)
  | inr false =>
      (inl (Exit (ConfigError (key_not_found "look"))),
       State (fs s)
         (trace s ++ [Print (key_not_found "look" +:+ nl +:+ refer_to_docs)]))
  end.
Proof.
  intros Hfile Hload.
  unfold read_config, bind, read_file, lift, guard, config_error, print, emit,
    exit, raise, ret.
  rewrite Hfile, Hload. now destruct (Py.contains "look" config) as [e|[|]].
Qed.

(** X4. When the configuration file parses to something that is not a
    mapping (nothing at all, a number, a text, a list), the run ends in
    an uncaught [TypeError] with nothing printed; only a text or list
    without ["look"] in it gets the configuration error for [look]. *)
Theorem non_mapping_config (X : externals) (h : host) (s : state)
    (text : string) (config : yaml) :
  early_failure h (fs s) = None ->
  fs s !! config_path h = Some (File text) ->
  safe_load X text = inr config ->
  Py.is_dict config = false ->
  build X h s =
  match Py.contains "look" config with
  | inr false =>
      (inl (Exit (ConfigError (key_not_found "look"))),
       State (fs s)
         (trace s ++ [Print (key_not_found "look" +:+ nl +:+ refer_to_docs)]))
  | _ => (inl (Uncaught TypeError), s)
  end.
Proof.
  intros Hearly Hfile Hload Hdict.
  destruct (Py.contains "look" config) as [e|[|]] eqn:Hlook;
    apply build_stop; unfold prepare.
  - destruct (early_checks_pass h s Hearly) as [Hd Hs].
    rewrite (bind_eq _ _ _ _ _ Hd), (bind_eq _ _ _ _ _ Hs).
    apply bind_stop. rewrite (read_config_run X h s text config Hfile Hload), Hlook.
    now rewrite (contains_error _ _ _ Hlook).
  - rewrite (start_run X h s text config _ Hearly Hfile Hload Hlook).
    apply bind_stop. unfold get_theme. apply bind_stop.
    unfold has_key. now rewrite (getitem_non_dict config "look" Hdict).
  - destruct (early_checks_pass h s Hearly) as [Hd Hs].
    rewrite (bind_eq _ _ _ _ _ Hd), (bind_eq _ _ _ _ _ Hs).
    apply bind_stop. now rewrite (read_config_run X h s text config Hfile Hload), Hlook.
Qed.

Lemma non_mapping_config_empty :
  build (Demo.ext (YScalar SNone)) Demo.here (Demo.start EmptyString) =
  match Py.contains "look" (YScalar SNone) with
  | inr false =>
      (inl (Exit (ConfigError (key_not_found "look"))),
       State (fs (Demo.start EmptyString))
         (trace (Demo.start EmptyString)
          ++ [Print (key_not_found "look" +:+ nl +:+ refer_to_docs)]))
  | _ => (inl (Uncaught TypeError), Demo.start EmptyString)
  end.
Proof.
  exact (non_mapping_config (Demo.ext (YScalar SNone)) Demo.here
           (Demo.start EmptyString) "look: ..." (YScalar SNone)
           eq_refl eq_refl eq_refl eq_refl).
Defined.

(** X5. When [look] is present but is not a mapping, the presence test for
    its theme is a substring or membership test: a text that does not
    contain ["theme"] gets the configuration error for [look/theme], and
    anything else an uncaught [TypeError] with nothing printed. *)
Theorem non_mapping_look (X : externals) (h : host) (s : state)
    (text : string) (config look : yaml) :
  early_failure h (fs s) = None ->
  fs s !! config_path h = Some (File text) ->
  safe_load X text = inr config ->
  Py.getitem config "look" = inr look ->
  Py.is_dict look = false ->
  build X h s =
  match Py.contains "theme" look with
  | inr false =>
      (inl (Exit (ConfigError (key_not_found "look/theme"))),
       State (fs s)
         (trace s
          ++ [Print (key_not_found "look/theme" +:+ nl +:+ refer_to_docs)]))
  | _ => (inl (Uncaught TypeError), s)
  end.
Proof.
  intros Hearly Hfile Hload Hlook Hdict.
  destruct (Py.contains "theme" look) as [e|[|]] eqn:Hc;
    apply build_stop; unfold prepare;
    rewrite (start_run X h s text config _ Hearly Hfile Hload
               (getitem_contains _ _ _ Hlook));
    apply bind_stop; unfold get_theme, has_key, get_key; rewrite Hlook;
    cbn [ebind]; rewrite Hc.
  - apply bind_stop. now rewrite (contains_error _ _ _ Hc).
  - unfold bind, lift, guard, ret, raise.
    now rewrite (getitem_non_dict look "theme" Hdict).
  - reflexivity.
Qed.

Lemma non_mapping_look_text :
  build (Demo.ext Cases.text_look) Demo.here (Demo.start EmptyString) =
  match Py.contains "theme" (YStr "a theme of my own") with
  | inr false =>
      (inl (Exit (ConfigError (key_not_found "look/theme"))),
       State (fs (Demo.start EmptyString))
         (trace (Demo.start EmptyString)
          ++ [Print (key_not_found "look/theme" +:+ nl +:+ refer_to_docs)]))
  | _ => (inl (Uncaught TypeError), Demo.start EmptyString)
  end.
Proof.
  exact (non_mapping_look (Demo.ext Cases.text_look) Demo.here
           (Demo.start EmptyString) "look: ..." Cases.text_look
           (YStr "a theme of my own") eq_refl eq_refl eq_refl eq_refl eq_refl).
Defined.

(** ** Themes, fonts and the image *)

Lemma get_theme_run (h : host) (config : yaml) (name : string) (s : state) :
  lookup_path ["look"; "theme"] config = Some (YStr name) ->
  get_theme h config s =
  if theme_found (fs s) h name
  then (inr (theme_file h name),
        State (fs s) (trace s ++ [Print (using_theme h name)]))
  else (inl (Exit (fst (theme_failure (fs s) h name))),
        State (fs s) (trace s ++ [Print (snd (theme_failure (fs s) h name))])).
Proof.
  intros (Hh & Hg & _)%lookup_two.
  unfold get_theme. rewrite Hh, Hg.
  destruct s as [d t].
  cbv beta iota zeta delta
    [bind ret guard lift as_str YStr is_dir is_file print emit exit
     fst snd andb theme_found theme_failure using_theme theme_file theme_dir
     dir_exists file_exists].
  cbn [fs trace].
  generalize (joinpath (joinpath (root_dir h) "themes") name). intros td.
  generalize (joinpath td "theme.scss"). intros tf.
  destruct (d !! td) as [[?|]|]; cbn [fs trace]; try reflexivity.
  now destruct (d !! tf) as [[?|]|].
Qed.

Lemma get_font_run (h : host) (config : yaml) (theme name : string) (s : state) :
  lookup_path ["look"; "theme"] config = Some (YStr theme) ->
  lookup_path ["look"; "font"] config = Some (YStr name) ->
  get_font h config s =
  if font_found (fs s) h name
  then (inr (font_file h name),
        State (fs s) (trace s ++ [Print (using_font h name)]))
  else (inl (Exit (fst (font_failure (fs s) h name))),
        State (fs s) (trace s ++ [Print (snd (font_failure (fs s) h name))])).
Proof.
  intros (Hh & _ & _)%lookup_two (_ & Hg & _)%lookup_two.
  unfold get_font. rewrite Hh, Hg.
  destruct s as [d t].
  cbv beta iota zeta delta
    [bind ret guard lift as_str YStr is_dir is_file print emit exit
     fst snd andb font_found font_failure using_font font_file font_dir
     dir_exists file_exists].
  cbn [fs trace].
  generalize (joinpath (joinpath (root_dir h) "fonts") name). intros fd.
  generalize (joinpath fd "font.scss"). intros ff.
  destruct (d !! fd) as [[?|]|]; cbn [fs trace]; try reflexivity.
  now destruct (d !! ff) as [[?|]|].
Qed.

Lemma get_image_run (config v : yaml) (path : string) (s : state) :
  lookup_path ["look"; "image"] config = Some v ->
  to_path v = inr path ->
  get_image config s =
  if file_exists (fs s) path
  then (inr path,
        State (fs s) (trace s ++ [Print ("Using image:" +:+ nl +:+ tab +:+ path)]))
  else (inl (Exit NoImage), State (fs s) (trace s ++ [Print (image_missing path)])).
Proof.
  intros (Hh & Hg & _)%lookup_two Hpath.
  unfold get_image. rewrite Hh, Hg.
  destruct s as [d t].
  cbv beta iota zeta delta
    [bind ret guard lift is_file print emit exit file_exists image_missing].
  rewrite Hpath. cbn [fs trace].
  now destruct (d !! path) as [[?|]|].
Qed.

(** X6. A theme named in the configuration that is not installed ends the
    run with status 4 after one line that names it: the line about the
    missing directory, or, when the directory is there, the line about
    the missing [theme.scss]. Nothing else of the configuration is
    looked at before. *)
Theorem theme_not_found (X : externals) (h : host) (s : state) (text : string)
    (config : yaml) (name : string) :
  early_failure h (fs s) = None ->
  fs s !! config_path h = Some (File text) ->
  safe_load X text = inr config ->
  lookup_path ["look"; "theme"] config = Some (YStr name) ->
  theme_found (fs s) h name = false ->
  build X h s =
    (inl (Exit (fst (theme_failure (fs s) h name))),
     State (fs s) (trace s ++ [Print (snd (theme_failure (fs s) h name))]))
  /\ exit_code (fst (theme_failure (fs s) h name)) = 4%Z.
Proof.
  intros Hearly Hfile Hload Htheme Hfound. split.
  - apply build_stop. unfold prepare.
    rewrite (start_run X h s text config _ Hearly Hfile Hload
               (proj2 (proj2 (lookup_two _ _ _ _ Htheme)))).
    apply bind_stop. now rewrite (get_theme_run h config name s Htheme), Hfound.
  - unfold theme_failure. now destruct (dir_exists _ _).
Qed.

Lemma theme_not_found_light :
  build (Demo.ext Cases.no_theme) Demo.here (Demo.start EmptyString) =
    (inl (Exit (fst (theme_failure (fs (Demo.start EmptyString)) Demo.here "light"))),
     State (fs (Demo.start EmptyString))
       (trace (Demo.start EmptyString)
        ++ [Print (snd (theme_failure (fs (Demo.start EmptyString)) Demo.here
                          "light"))]))
  /\ exit_code (fst (theme_failure (fs (Demo.start EmptyString)) Demo.here "light"))
     = 4%Z.
Proof.
  exact (theme_not_found (Demo.ext Cases.no_theme) Demo.here
           (Demo.start EmptyString) "look: ..." Cases.no_theme "light"
           eq_refl eq_refl eq_refl eq_refl eq_refl).
Defined.

(** X7. With the theme found, a font named in the configuration that is not
    installed ends the run with status 5, after the line about the theme
    in use and one line that names the font. *)
Theorem font_not_found (X : externals) (h : host) (s : state) (text : string)
    (config : yaml) (theme name : string) :
  early_failure h (fs s) = None ->
  fs s !! config_path h = Some (File text) ->
  safe_load X text = inr config ->
  lookup_path ["look"; "theme"] config = Some (YStr theme) ->
  theme_found (fs s) h theme = true ->
  lookup_path ["look"; "font"] config = Some (YStr name) ->
  font_found (fs s) h name = false ->
  build X h s =
    (inl (Exit (fst (font_failure (fs s) h name))),
     State (fs s)
       (trace s ++ [Print (using_theme h theme);
                    Print (snd (font_failure (fs s) h name))]))
  /\ exit_code (fst (font_failure (fs s) h name)) = 5%Z.
Proof.
  intros Hearly Hfile Hload Htheme Hthemefound Hfont Hfound. split.
  - apply build_stop. unfold prepare.
    rewrite (start_run X h s text config _ Hearly Hfile Hload
               (proj2 (proj2 (lookup_two _ _ _ _ Htheme)))).
    erewrite bind_eq
      by (rewrite (get_theme_run h config theme s Htheme), Hthemefound;
          reflexivity).
    apply bind_stop.
    rewrite (get_font_run h config theme name _ Htheme Hfont). cbn [fs trace].
    now rewrite Hfound, snoc_snoc.
  - unfold font_failure. now destruct (dir_exists _ _).
Qed.

Lemma font_not_found_serif :
  build (Demo.ext Cases.no_font) Demo.here (Demo.start EmptyString) =
    (inl (Exit (fst (font_failure (fs (Demo.start EmptyString)) Demo.here "serif"))),
     State (fs (Demo.start EmptyString))
       (trace (Demo.start EmptyString)
        ++ [Print (using_theme Demo.here "dark");
            Print (snd (font_failure (fs (Demo.start EmptyString)) Demo.here
                          "serif"))]))
  /\ exit_code (fst (font_failure (fs (Demo.start EmptyString)) Demo.here "serif"))
     = 5%Z.
Proof.
  exact (font_not_found (Demo.ext Cases.no_font) Demo.here
           (Demo.start EmptyString) "look: ..." Cases.no_font "dark" "serif"
           eq_refl eq_refl eq_refl eq_refl eq_refl eq_refl eq_refl).
Defined.

(** X8. With the theme and the font found, an image path that is not a file
    on the disk ends the run with status 6, after the lines about the
    theme and the font in use and one line that names the path. *)
Theorem image_not_found (X : externals) (h : host) (s : state) (text : string)
    (config v : yaml) (theme font path : string) :
  early_failure h (fs s) = None ->
  fs s !! config_path h = Some (File text) ->
  safe_load X text = inr config ->
  lookup_path ["look"; "theme"] config = Some (YStr theme) ->
  theme_found (fs s) h theme = true ->
  lookup_path ["look"; "font"] config = Some (YStr font) ->
  font_found (fs s) h font = true ->
  lookup_path ["look"; "image"] config = Some v ->
  to_path v = inr path ->
  file_exists (fs s) path = false ->
  build X h s =
    (inl (Exit NoImage),
     State (fs s)
       (trace s ++ [Print (using_theme h theme); Print (using_font h font);
                    Print (image_missing path)]))
  /\ exit_code NoImage = 6%Z.
Proof.
  intros Hearly Hfile Hload Htheme Hthemefound Hfont Hfontfound Himage Hpath
    Hfound.
  split; [| reflexivity].
  apply build_stop. unfold prepare.
  rewrite (start_run X h s text config _ Hearly Hfile Hload
             (proj2 (proj2 (lookup_two _ _ _ _ Htheme)))).
  erewrite bind_eq
    by (rewrite (get_theme_run h config theme s Htheme), Hthemefound;
        reflexivity).
  erewrite bind_eq
    by (rewrite (get_font_run h config theme font _ Htheme Hfont); cbn [fs trace];
        rewrite Hfontfound; reflexivity).
  apply bind_stop.
  rewrite (get_image_run config v path _ Himage Hpath). cbn [fs trace].
  now rewrite Hfound, !snoc_snoc, <- app_assoc.
Qed.

Lemma image_not_found_gone :
  build (Demo.ext Cases.no_image) Demo.here (Demo.start EmptyString) =
    (inl (Exit NoImage),
     State (fs (Demo.start EmptyString))
       (trace (Demo.start EmptyString)
        ++ [Print (using_theme Demo.here "dark");
            Print (using_font Demo.here "mono");
            Print (image_missing "gone.png")]))
  /\ exit_code NoImage = 6%Z.
Proof.
  exact (image_not_found (Demo.ext Cases.no_image) Demo.here
           (Demo.start EmptyString) "look: ..." Cases.no_image (YStr "gone.png")
           "dark" "mono" "gone.png"
           eq_refl eq_refl eq_refl eq_refl eq_refl eq_refl eq_refl eq_refl
           eq_refl eq_refl).
Defined.

(** ** The substitution loop on arbitrary values *)

Lemma substitute_run (items : list (string * yaml)) (template : string) :
  substitute items template =
  if forallb (fun kv => is_str (snd kv)) items
  then inr (replace_all items template)
  else inl TypeError.
Proof.
  revert template. induction items as [|[key value] items IH]; intros template.
  - reflexivity.
  - cbn [substitute forallb snd replace_all].
    destruct value as [[| | |v]| |]; try reflexivity.
    cbn [as_str ebind is_str andb]. apply IH.
Qed.

Lemma replace_from_absent (old new s : string) :
  Py.substr old s = false -> Py.replace_from old new 0 s = s.
Proof.
  induction s as [|c s IH]; [reflexivity |].
  cbn [Py.substr Py.replace_from].
  destruct (String.prefix old (String c s)); [discriminate |].
  intros H. now rewrite IH.
Qed.

Lemma replace_all_absent (items : list (string * yaml)) (template : string) :
  forallb (fun kv => negb (Py.substr (token (fst kv)) template)) items = true ->
  replace_all items template = template.
Proof.
  induction items as [|[key value] items IH]; [reflexivity |].
  cbn [forallb fst]. intros [Hk Hrest]%andb_prop.
  apply negb_true_iff in Hk.
  destruct value as [[| | |v]| |]; cbn [replace_all]; try now apply IH.
  change (Py.replace (token key) v template)
    with (Py.replace_from (token key) v 0 template).
  rewrite replace_from_absent by assumption. now apply IH.
Qed.

(** X10. A template that holds none of the seven tokens comes out of the
    substitution loop as it went in, whatever the text values are. *)
Theorem substitute_without_tokens (items : list (string * yaml))
    (template : string) :
  fst <$> items = placeholder_keys ->
  forallb (fun kv => is_str (snd kv)) items = true ->
  has_token template = false ->
  substitute items template = inr template.
Proof.
  intros Hkeys Hstr Htok. rewrite substitute_run, Hstr. f_equal.
  apply replace_all_absent. apply forallb_forall. intros [key value] Hin.
  cbn [fst]. apply negb_true_iff.
  unfold has_token in Htok.
  destruct (Py.substr (token key) template) eqn:E; [| reflexivity].
  assert (Hex : existsb (fun key => Py.substr (token key) template)
                  placeholder_keys = true); [| congruence].
  apply existsb_exists. exists key. split; [| assumption].
  rewrite <- Hkeys. apply list_elem_of_In, list_elem_of_fmap. exists (key, value).
  split; [reflexivity | now apply list_elem_of_In].
Qed.

Lemma substitute_without_tokens_plain :
  substitute
    (replacement_map (YStr "en") (YStr "body{}") (YStr "Home")
       (YStr "data:image/png;base64,YWJj") (YStr "Hi") (YStr "<section/>")
       (YStr "Search"))
    "<html>BUILDER is not a token</html>" =
  inr "<html>BUILDER is not a token</html>".
Proof.
  exact (substitute_without_tokens
           (replacement_map (YStr "en") (YStr "body{}") (YStr "Home")
              (YStr "data:image/png;base64,YWJj") (YStr "Hi") (YStr "<section/>")
              (YStr "Search"))
           "<html>BUILDER is not a token</html>" eq_refl eq_refl eq_refl).
Defined.

Lemma prepare_items (X : externals) (h : host) (s : state)
    (items : list (string * yaml)) :
  fst (prepare X h s) = inr items ->
  exists lang css title image message sections placeholder,
    items = replacement_map lang (YStr css) title (YStr image) message
              (YStr sections) placeholder.
Proof.
  destruct (prepare X h s) as [r s1] eqn:E. cbn [fst]. intros ->.
  unfold prepare in E.
  repeat (apply bind_inr in E as (? & ? & _ & E)).
  injection E as <- _. now repeat eexists.
Qed.

(** X9. When a value of the replacement map is not text (only the language,
    the title, the welcome message and the search placeholder, which come
    from the configuration as they are, can be such), the substitution
    loop raises [TypeError]: the run ends uncaught after every earlier
    stage succeeded, and nothing has been written. *)
Theorem non_text_value_stops_the_run (X : externals) (h : host) (s : state)
    (items : list (string * yaml)) (template : string) :
  fst (prepare X h s) = inr items ->
  fs s !! index_path h = Some (File template) ->
  forallb (fun kv => is_str (snd kv)) items = false ->
  build X h s = (inl (Uncaught TypeError), snd (prepare X h s))
  /\ fs (snd (prepare X h s)) = fs s
  /\ file_writes (trace (snd (prepare X h s))) = file_writes (trace s)
  /\ exists lang css title image message sections placeholder,
       items = replacement_map lang (YStr css) title (YStr image) message
                 (YStr sections) placeholder.
Proof.
  intros Hp Hfile Hstr.
  destruct (prepare_no_write X h s) as [Hfs Htr].
  repeat split; try assumption; [| now apply (prepare_items X h s)].
  unfold build. destruct (prepare X h s) as [r s1] eqn:E.
  cbn [fst snd] in *. subst r.
  rewrite (bind_eq _ _ _ _ _ E).
  unfold write_output.
  erewrite bind_eq by (unfold read_file; rewrite Hfs, Hfile; reflexivity).
  apply bind_stop. unfold lift. now rewrite substitute_run, Hstr.
Qed.

Lemma non_text_value_stops_the_run_number :
  build (Demo.ext Cases.numeric_message) Demo.here
    (Demo.start (flatten Demo.pieces)) =
    (inl (Uncaught TypeError),
     snd (prepare (Demo.ext Cases.numeric_message) Demo.here
            (Demo.start (flatten Demo.pieces))))
  /\ fs (snd (prepare (Demo.ext Cases.numeric_message) Demo.here
                (Demo.start (flatten Demo.pieces)))) =
     fs (Demo.start (flatten Demo.pieces))
  /\ file_writes
       (trace (snd (prepare (Demo.ext Cases.numeric_message) Demo.here
                      (Demo.start (flatten Demo.pieces))))) =
     file_writes (trace (Demo.start (flatten Demo.pieces)))
  /\ exists lang css title image message sections placeholder,
       match fst (prepare (Demo.ext Cases.numeric_message) Demo.here
                    (Demo.start (flatten Demo.pieces))) with
       | inr items => items
       | inl _ => []
       end = replacement_map lang (YStr css) title (YStr image) message
               (YStr sections) placeholder.
Proof.
  apply (non_text_value_stops_the_run (Demo.ext Cases.numeric_message) Demo.here
           (Demo.start (flatten Demo.pieces))
           (match fst (prepare (Demo.ext Cases.numeric_message) Demo.here
                         (Demo.start (flatten Demo.pieces))) with
            | inr items => items
            | inl _ => []
            end) (flatten Demo.pieces)).
  - vm_compute. reflexivity.
  - reflexivity.
  - vm_compute. reflexivity.
Defined.

(** ** More on the data URL *)

Lemma no_colon_app (a b : string) :
  no_colon (a +:+ b) = no_colon a && no_colon b.
Proof.
  induction a as [|c a IH]; [reflexivity |].
  rewrite append_cons. cbn [no_colon]. now rewrite IH, andb_assoc.
Qed.

Lemma char_of_no_colon (x : Base64.sextet) :
  Ascii.eqb (Base64.char_of x) ":"%char = false.
Proof.
  destruct x as [[[[[b5 b4] b3] b2] b1] b0].
  destruct b5, b4, b3, b2, b1, b0; vm_compute; reflexivity.
Qed.

Lemma b64encode_no_colon_upto (n : nat) :
  forall s : string, String.length s <= n -> no_colon (Base64.b64encode s) = true.
Proof.
  induction n as [n IH] using lt_wf_ind.
  intros [|x [|y [|z rest]]] Hlen.
  - reflexivity.
  - cbn [Base64.b64encode]. destruct (Base64.enc3 x _ _) as [[[a b] c] d].
    cbn [no_colon]. now rewrite !char_of_no_colon.
  - cbn [Base64.b64encode]. destruct (Base64.enc3 x y _) as [[[a b] c] d].
    cbn [no_colon]. now rewrite !char_of_no_colon.
  - rewrite Base64Facts.b64encode_group.
    destruct (Base64.enc3 x y z) as [[[a b] c] d].
    cbn [no_colon]. rewrite !char_of_no_colon.
    rewrite (IH (String.length rest)); [reflexivity | cbn in Hlen; lia | lia].
Qed.

Lemma b64encode_no_colon (s : string) : no_colon (Base64.b64encode s) = true.
Proof. exact (b64encode_no_colon_upto (String.length s) s (Nat.le_refl _)). Qed.

Lemma prefix_no_colon (p t : string) :
  String.prefix p t = true -> no_colon t = true -> no_colon p = true.
Proof.
  revert t. induction p as [|a p IH]; intros [|b t]; try easy.
  cbn [String.prefix no_colon]. destruct (ascii_dec a b) as [->|]; [| discriminate].
  intros Hp [Hb Ht]%andb_prop. rewrite Hb. cbn [andb]. now apply (IH t).
Qed.

Lemma token_has_colon (key : string) : no_colon (token key) = false.
Proof. reflexivity. Qed.

Lemma no_colon_no_token (key s : string) :
  no_colon s = true -> Py.substr (token key) s = false.
Proof.
  induction s as [|c s IH]; [reflexivity |].
  intros Hs. cbn [Py.substr].
  destruct (String.prefix (token key) (String c s)) eqn:Hp.
  - apply prefix_no_colon in Hp; [| assumption].
    now rewrite token_has_colon in Hp.
  - apply IH. cbn [no_colon] in Hs. now apply andb_prop in Hs as [_ Hs].
Qed.

Lemma data_prefix_no_token (key rest : string) :
  no_colon rest = true -> Py.substr (token key) ("data:" +:+ rest) = false.
Proof.
  intros Hrest.
  change ("data:" +:+ rest)
    with (String "d" (String "a" (String "t" (String "a" (String ":" rest))))).
  cbn [Py.substr String.prefix token].
  change (String.prefix (token key) rest) with (String.prefix (token key) rest).
  pose proof (no_colon_no_token key rest Hrest) as Hno.
  destruct rest as [|c rest]; [reflexivity |].
  exact Hno.
Qed.

(** X11. The data URL of an image holds none of the seven placeholder tokens,
    as long as the guessed MIME type has no colon in it: the payload is
    made of the 64 letters and the padding sign only. *)
Theorem data_url_has_no_token (X : externals) (path bytes : string) (s : state) :
  fs s !! path = Some (File bytes) ->
  match guess_type X path with
  | Some mimetype => no_colon mimetype = true
  | None => True
  end ->
  exists url,
    image_to_data_url X path s = (inr url, s) /\ has_token url = false.
Proof.
  intros Hf Hm. eexists. split.
  - unfold image_to_data_url, bind, read_file, ret. rewrite Hf. reflexivity.
  - unfold has_token. apply not_true_is_false. intros Hex.
    apply existsb_exists in Hex as (key & _ & Hsub).
    rewrite data_prefix_no_token in Hsub; [discriminate |].
    rewrite !no_colon_app, b64encode_no_colon.
    destruct (guess_type X path); [rewrite Hm |]; reflexivity.
Qed.

Lemma data_url_has_no_token_png :
  exists url,
    image_to_data_url (Demo.ext Demo.config) "pic.png" (Demo.start EmptyString) =
      (inr url, Demo.start EmptyString)
    /\ has_token url = false.
Proof.
  exact (data_url_has_no_token (Demo.ext Demo.config) "pic.png" "abc"
           (Demo.start EmptyString) eq_refl eq_refl).
Defined.

(** X12. Two images for which the same MIME type is guessed get the same data
    URL only if they hold the same bytes. *)
Theorem data_url_injective (X : externals) (path1 path2 bytes1 bytes2 : string)
    (s1 s2 : state) :
  fs s1 !! path1 = Some (File bytes1) ->
  fs s2 !! path2 = Some (File bytes2) ->
  guess_type X path1 = guess_type X path2 ->
  fst (image_to_data_url X path1 s1) = fst (image_to_data_url X path2 s2) ->
  bytes1 = bytes2.
Proof.
  intros Hf1 Hf2 Hm.
  unfold image_to_data_url, bind, read_file, ret. rewrite Hf1, Hf2, Hm.
  cbn [fst]. intros [= Heq].
  do 3 apply String.app_inj in Heq.
  apply (f_equal Base64.b64decode) in Heq.
  rewrite !Base64Facts.b64decode_b64encode in Heq. congruence.
Qed.

Lemma data_url_injective_same :
  "abc" = "abc".
Proof.
  exact (data_url_injective (Demo.ext Demo.config) "pic.png" "pic.png" "abc" "abc"
           (Demo.start EmptyString) (Demo.start "<html/>")
           eq_refl eq_refl eq_refl eq_refl).
Defined.

(** ** When the sections can be rendered *)

Lemma links_loop_complete (X : externals) (links : list (scalar * yaml))
    (acc : string) :
  (exists html, links_loop X links acc = inr html) <->
  forallb link_complete links = true.
Proof.
  revert acc. induction links as [|[link_name link_data] links IH]; intros acc.
  - split; [reflexivity | intros _; now exists acc].
  - cbn [links_loop forallb]. unfold link_complete at 1. cbn [snd].
    destruct link_data as [k|l|d]; cbn [Py.getitem ebind].
    + split; [intros [html [=]] | discriminate].
    + split; [intros [html [=]] | discriminate].
    + destruct (Py.dict_get "icon" d); cbn [ebind];
        [| split; [intros [html [=]] | discriminate]].
      destruct (Py.dict_get "url" d); cbn [ebind andb];
        [apply IH | split; [intros [html [=]] | discriminate]].
Qed.

(** X13. The section renderer returns exactly when every section is a mapping
    of links and every link a mapping with an [icon] and a [url] entry;
    a section or a link named in the configuration but left empty (a
    null value) makes it raise. *)
Theorem sections_render_iff (X : externals) (sections : list (scalar * yaml))
    (acc : string) (n : nat) :
  (exists html, sections_loop X sections acc n = inr html) <->
  renderable sections = true.
Proof.
  revert acc n. unfold renderable.
  induction sections as [|[section_name links] sections IH]; intros acc n.
  - split; [reflexivity | intros _; now exists acc].
  - cbn [sections_loop forallb snd].
    destruct links as [k|l|d]; cbn [Py.items ebind].
    + split; [intros [html [=]] | discriminate].
    + split; [intros [html [=]] | discriminate].
    + set (acc' := acc +:+ section_open (Py.str_scalar section_name)).
      pose proof (links_loop_complete X d acc') as Hl.
      destruct (links_loop X d acc') as [e|html]; cbn [ebind].
      * destruct (forallb link_complete d);
          [destruct (proj2 Hl eq_refl) as [? [=]] |].
        split; [intros [html [=]] | discriminate].
      * rewrite (proj1 Hl (ex_intro _ html eq_refl)). apply IH.
Qed.

(** ** What a run can change on the disk *)

Lemma length_append (a b : string) :
  String.length (a +:+ b) = String.length a + String.length b.
Proof.
  induction a as [|c a IH]; [reflexivity |].
  rewrite append_cons. cbn [String.length]. now rewrite IH.
Qed.

Lemma output_not_dist (h : host) : html_output_file_path h <> dist_dir h.
Proof.
  unfold html_output_file_path. generalize (dist_dir h). intros d.
  change (joinpath d "index.html") with (d +:+ "/index.html").
  intros H. apply (f_equal String.length) in H.
  rewrite length_append in H. cbn in H. lia.
Qed.

(** The last stage stops either without having changed anything or,
    when the output path is a directory, after creating the missing
    distribution directory. *)
Lemma write_output_stop (h : host) (items : list (string * yaml))
    (s s' : state) (e : stop) :
  write_output h items s = (inl e, s') ->
  s' = s \/
  (fs s !! dist_dir h = None /\
   s' = State (<[dist_dir h := Dir]> (fs s)) (trace s ++ [Mkdir (dist_dir h)])).
Proof.
  unfold write_output.
  generalize (index_path h), (dist_dir h), (html_output_file_path h),
    (done_message h).
  intros ip dd op dm.
  unfold bind, read_file, lift, is_dir, guard, mkdir, write_file,
    print, emit, ret, raise.
  destruct (fs s !! ip) as [[template|]|]; try (intros [= _ <-]; now left).
  destruct (substitute items template) as [e'|content];
    [intros [= _ <-]; now left |].
  cbn.
  destruct (fs s !! dd) as [[c|]|] eqn:Hd; cbn; rewrite ?Hd; cbn.
  - intros [= _ <-]; now left.
  - destruct (fs s !! op) as [[c|]|]; cbn; try discriminate.
    intros [= _ <-]; now left.
  - destruct (<[dd := Dir]> (fs s) !! op) as [[c|]|]; cbn; try discriminate.
    intros [= _ <-]. now right.
Qed.

Lemma failed_run_disk (X : externals) (h : host) (s s' : state) (e : stop) :
  build X h s = (inl e, s') ->
  (fs s' = fs s \/
   (fs s !! dist_dir h = None /\ fs s' = <[dist_dir h := Dir]> (fs s))) /\
  (file_writes (trace s') = file_writes (trace s) \/
   file_writes (trace s') = (file_writes (trace s) ++ [Mkdir (dist_dir h)])%list).
Proof.
  unfold build, bind. pose proof (prepare_no_write X h s) as [Hfs Htr].
  destruct (prepare X h s) as [[e1|items] s1]; cbn [fst snd] in Hfs, Htr.
  - intros [= _ <-]. rewrite Hfs, Htr. auto.
  - intros Hw. apply write_output_stop in Hw as [->|[Hnone ->]].
    + rewrite Hfs, Htr. auto.
    + cbn [fs trace]. rewrite Hfs in *. split.
      * right. now split.
      * right. unfold file_writes. rewrite List.filter_app.
        fold (file_writes (trace s1)). now rewrite Htr.
Qed.

(** X14. A run that ends at one of the exits of the script has changed
    nothing: the disk is as it was, not even the distribution directory
    has been created, and the status is one of 1 to 7. *)
Theorem exit_leaves_disk_untouched (X : externals) (h : host) (s s' : state)
    (f : failure) :
  build X h s = (inl (Exit f), s') ->
  fs s' = fs s /\
  file_writes (trace s') = file_writes (trace s) /\
  (1 <= exit_code f <= 7)%Z.
Proof.
  intros E. destruct (exit_before_writing X h s s' f E) as [Hfs Htr].
  repeat split; try assumption; destruct f; cbn; lia.
Qed.

Lemma exit_leaves_disk_untouched_demo :
  fs (snd (build (Demo.ext Cases.no_image) Demo.here (Demo.start EmptyString))) =
    fs (Demo.start EmptyString) /\
  file_writes
    (trace (snd (build (Demo.ext Cases.no_image) Demo.here
                   (Demo.start EmptyString)))) =
    file_writes (trace (Demo.start EmptyString)) /\
  (1 <= exit_code NoImage <= 7)%Z.
Proof.
  apply (exit_leaves_disk_untouched (Demo.ext Cases.no_image) Demo.here
           (Demo.start EmptyString) _ NoImage).
  vm_compute. reflexivity.
Defined.

(** X15. Whatever way a run ends, every path other than the distribution
    directory and the output file in it holds what it held before. *)
Theorem build_touches_only_dist (X : externals) (h : host) (s : state)
    (p : string) :
  p <> dist_dir h ->
  p <> html_output_file_path h ->
  fs (snd (build X h s)) !! p = fs s !! p.
Proof.
  intros Hd Ho. destruct (build X h s) as [[e|[]] s'] eqn:E; cbn [snd].
  - apply failed_run_disk in E as ([->|[_ ->]] & _);
      [reflexivity | now apply lookup_insert_ne].
  - unfold build in E. apply bind_inr in E as (items & s1 & Hp & Hw).
    pose proof (prepare_no_write X h s) as [Hfs _]. rewrite Hp in Hfs.
    cbn [snd] in Hfs.
    pose proof (write_output_cases h items s1) as Hc. rewrite Hw in Hc.
    destruct Hc as (template & content & _ & _ & -> & _). rewrite Hfs.
    rewrite lookup_insert_ne by congruence.
    destruct (dir_exists (fs s) (dist_dir h)); [reflexivity |].
    now apply lookup_insert_ne.
Qed.

Lemma build_touches_only_dist_image :
  fs (snd (build (Demo.ext Demo.config) Demo.here
             (Demo.start (flatten Demo.pieces)))) !! "pic.png" =
  fs (Demo.start (flatten Demo.pieces)) !! "pic.png".
Proof.
  apply (build_touches_only_dist (Demo.ext Demo.config) Demo.here
           (Demo.start (flatten Demo.pieces)) "pic.png"); discriminate.
Defined.

(** X16. When every stage before the output succeeded and the replacement map
    holds texts only, a regular file in the place of the distribution
    directory makes the run end in an uncaught [FileExistsError], with
    nothing written. *)
Theorem dist_is_a_file (X : externals) (h : host) (s : state)
    (items : list (string * yaml)) (template content : string) :
  fst (prepare X h s) = inr items ->
  fs s !! index_path h = Some (File template) ->
  forallb (fun kv => is_str (snd kv)) items = true ->
  fs s !! dist_dir h = Some (File content) ->
  build X h s = (inl (Uncaught FileExistsError), snd (prepare X h s)).
Proof.
  intros Hp Hfile Hstr Hdist.
  destruct (prepare_no_write X h s) as [Hfs _].
  unfold build. destruct (prepare X h s) as [r s1] eqn:E.
  cbn [fst snd] in *. subst r.
  rewrite (bind_eq _ _ _ _ _ E). unfold write_output.
  erewrite bind_eq by (unfold read_file; rewrite Hfs, Hfile; reflexivity).
  erewrite bind_eq by (unfold lift; rewrite substitute_run, Hstr; reflexivity).
  erewrite bind_eq by (unfold is_dir; rewrite Hfs, Hdist; reflexivity).
  apply bind_stop. unfold guard, mkdir. now rewrite Hfs, Hdist.
Qed.

Lemma dist_is_a_file_blocked :
  build (Demo.ext Demo.config) Demo.here Cases.blocked =
  (inl (Uncaught FileExistsError),
   snd (prepare (Demo.ext Demo.config) Demo.here Cases.blocked)).
Proof.
  apply (dist_is_a_file (Demo.ext Demo.config) Demo.here Cases.blocked
           (match fst (prepare (Demo.ext Demo.config) Demo.here Cases.blocked) with
            | inr items => items
            | inl _ => []
            end) (flatten Demo.pieces) "x").
  - vm_compute. reflexivity.
  - reflexivity.
  - vm_compute. reflexivity.
  - reflexivity.
Defined.

(** ** Configuration errors *)

(** X2. Whenever the run takes the configuration-error exit, at any of its
    twelve places, the last line printed is the message followed by the
    pointer to the documentation, the status is 3, and nothing has been
    written. *)
Theorem config_error_is_announced (X : externals) (h : host) (s s' : state)
    (msg : string) :
  build X h s = (inl (Exit (ConfigError msg)), s') ->
  last (trace s') = Some (Print (msg +:+ nl +:+ refer_to_docs)) /\
  exit_code (ConfigError msg) = 3%Z /\
  fs s' = fs s /\
  file_writes (trace s') = file_writes (trace s).
Proof.
  intros E.
  assert (Hstable : stable (fun _ : state => True))
    by (intros ? ? ? ?; exact Logic.I).
  destruct (prepare_announces X h _ Hstable s Logic.I) as [_ Hann].
  pose proof (prepare_no_write X h s) as [Hfs Htr].
  unfold build, bind in E.
  destruct (prepare X h s) as [[e|items] s1]; cbn [fst snd] in *.
  - injection E as -> ->. repeat split; try assumption. now apply Hann.
  - pose proof (write_output_cases h items s1) as Hw. rewrite E in Hw.
    contradiction.
Qed.

Lemma config_error_is_announced_sections :
  last (trace (snd (build (Demo.ext Demo.flat_sections) Demo.here
                      (Demo.start EmptyString)))) =
    Some (Print (("Key " +:+ quoted "sections"
                  +:+ " exists, but is not the right type (should be a dictionary).")
                 +:+ nl +:+ refer_to_docs)) /\
  exit_code
    (ConfigError ("Key " +:+ quoted "sections"
                  +:+ " exists, but is not the right type (should be a dictionary)."))
  = 3%Z /\
  fs (snd (build (Demo.ext Demo.flat_sections) Demo.here (Demo.start EmptyString))) =
    fs (Demo.start EmptyString) /\
  file_writes
    (trace (snd (build (Demo.ext Demo.flat_sections) Demo.here
                   (Demo.start EmptyString)))) =
    file_writes (trace (Demo.start EmptyString)).
Proof.
  apply (config_error_is_announced (Demo.ext Demo.flat_sections) Demo.here
           (Demo.start EmptyString)).
  vm_compute. reflexivity.
Defined.

(** ** From the first line to the last *)

Lemma get_message_run (X : externals) (config message : yaml) (s : state) :
  lookup_path ["look"; "message"] config = Some message ->
  get_message X config s =
  (inr message, State (fs s) (trace s ++ [Print (welcome_line X message)])).
Proof.
  intros (Hh & Hg & _)%lookup_two. unfold get_message. now rewrite Hh, Hg.
Qed.

Lemma get_page_run (config lang title : yaml) (s : state) :
  lookup_path ["page"; "lang"] config = Some lang ->
  lookup_path ["page"; "title"] config = Some title ->
  get_page config s = (inr (lang, title), s).
Proof.
  intros (Hh1 & Hg1 & Hc)%lookup_two (Hh2 & Hg2 & _)%lookup_two.
  unfold get_page. now rewrite Hc, Hh1, Hg1, Hh2, Hg2.
Qed.

Lemma get_search_run (config placeholder : yaml) (s : state) :
  lookup_path ["search"; "placeholder"] config = Some placeholder ->
  get_search config s = (inr placeholder, s).
Proof.
  intros (Hh & Hg & Hc)%lookup_two. unfold get_search. now rewrite Hc, Hh, Hg.
Qed.

Lemma compile_styles_run (X : externals) (h : host)
    (theme_file_path font_file_path theme font base : string) (s : state) :
  fs s !! theme_file_path = Some (File theme) ->
  fs s !! font_file_path = Some (File font) ->
  fs s !! style_path h = Some (File base) ->
  compile_styles X h theme_file_path font_file_path s =
  match sass_compile X (style_source theme font base) with
  | inr compiled_css =>
      (inr compiled_css,
       State (fs s) (trace s ++ [Compile (style_source theme font base)]))
  | inl e =>
      (inl (Exit CompileFailed),
       State (fs s)
         (trace s ++ [Compile (style_source theme font base);
                      Print (nl +:+ "Failed to compile your theme/font:");
                      Print e]))
  end.
Proof.
  intros Ht Hf Hb.
  unfold compile_styles, style_source, bind, read_file, print, emit, exit, ret.
  rewrite Ht, Hf, Hb. cbn [fs trace]. rewrite !append_assoc.
  destruct (sass_compile X _); cbn [fs trace]; rewrite <- ?app_assoc; reflexivity.
Qed.

Lemma get_sections_run (X : externals) (config : yaml)
    (sections : list (scalar * yaml)) (html : string) (s : state) :
  Py.getitem config "sections" = inr (YDict sections) ->
  sections_loop X sections EmptyString 0 = inr html ->
  get_sections X config s =
  (inr html,
   State (fs s)
     (trace s ++ [Print (nl +:+ "Generating sections...");
                  Print (tab +:+ "Sections generated.")])).
Proof.
  intros Hget Hloop. unfold get_sections, bind.
  rewrite (getitem_contains _ _ _ Hget), Hget. cbn. rewrite Hloop. cbn.
  now rewrite <- app_assoc.
Qed.

Lemma convert_image_run (X : externals) (path bytes : string) (s : state) :
  fs s !! path = Some (File bytes) ->
  convert_image X path s =
  (inr (data_url X path bytes),
   State (fs s)
     (trace s ++ [Print (nl +:+ "Converting image...");
                  Print (tab +:+ "Image converted.")])).
Proof.
  intros Hf.
  unfold convert_image, image_to_data_url, data_url, bind, read_file, print,
    emit, ret.
  cbn [fs trace]. rewrite Hf. cbn [fs trace]. now rewrite <- app_assoc.
Qed.

Lemma write_output_run (h : host) (items : list (string * yaml))
    (template : string) (s : state) :
  fs s !! index_path h = Some (File template) ->
  forallb (fun kv => is_str (snd kv)) items = true ->
  file_exists (fs s) (dist_dir h) = false ->
  dir_exists (fs s) (html_output_file_path h) = false ->
  write_output h items s =
  (inr tt,
   State (<[html_output_file_path h := File (replace_all items template)]>
            (if dir_exists (fs s) (dist_dir h) then fs s
             else <[dist_dir h := Dir]> (fs s)))
     (trace s
      ++ (if dir_exists (fs s) (dist_dir h) then [] else [Mkdir (dist_dir h)])
      ++ [WriteFile (html_output_file_path h) (replace_all items template);
          Print (done_message h)])%list).
Proof.
  intros Hindex Hstr Hdist Hout.
  pose proof (output_not_dist h) as Hne.
  unfold write_output. revert Hindex Hdist Hout Hne.
  unfold file_exists, dir_exists.
  generalize (index_path h), (dist_dir h), (html_output_file_path h),
    (done_message h).
  intros ip dd op dm Hindex Hdist Hout Hne.
  unfold bind, read_file, lift, is_dir, guard, mkdir, write_file,
    print, emit, ret, raise.
  rewrite Hindex, substitute_run, Hstr. cbn.
  destruct (fs s !! dd) as [[c|]|] eqn:Hd; cbn; rewrite ?Hd; cbn;
    try discriminate.
  - destruct (fs s !! op) as [[c|]|]; cbn; try discriminate;
      now rewrite <- app_assoc.
  - rewrite lookup_insert_ne by congruence.
    destruct (fs s !! op) as [[c|]|]; cbn; try discriminate;
      now rewrite <- !app_assoc.
Qed.

Section Reach.

Variable X : externals.
Variable h : host.
Variable s : state.
Variables (text theme font image : string).
Variables (config imagev message lang title placeholder : yaml).
Variables (theme_text font_text base_text bytes : string).

Hypothesis early : early_failure h (fs s) = None.
Hypothesis config_file : fs s !! config_path h = Some (File text).
Hypothesis config_loaded : safe_load X text = inr config.
Hypothesis theme_named : lookup_path ["look"; "theme"] config = Some (YStr theme).
Hypothesis theme_here : dir_exists (fs s) (theme_dir h theme) = true.
Hypothesis theme_read : fs s !! theme_file h theme = Some (File theme_text).
Hypothesis font_named : lookup_path ["look"; "font"] config = Some (YStr font).
Hypothesis font_here : dir_exists (fs s) (font_dir h font) = true.
Hypothesis font_read : fs s !! font_file h font = Some (File font_text).
Hypothesis image_named : lookup_path ["look"; "image"] config = Some imagev.
Hypothesis image_path : to_path imagev = inr image.
Hypothesis image_read : fs s !! image = Some (File bytes).
Hypothesis message_given : lookup_path ["look"; "message"] config = Some message.
Hypothesis lang_given : lookup_path ["page"; "lang"] config = Some lang.
Hypothesis title_given : lookup_path ["page"; "title"] config = Some title.
Hypothesis placeholder_given :
  lookup_path ["search"; "placeholder"] config = Some placeholder.
Hypothesis base_read : fs s !! style_path h = Some (File base_text).

Lemma theme_is_found : theme_found (fs s) h theme = true.
Proof. unfold theme_found, file_exists. now rewrite theme_here, theme_read. Qed.

Lemma font_is_found : font_found (fs s) h font = true.
Proof. unfold font_found, file_exists. now rewrite font_here, font_read. Qed.

(** With the early checks passed, the assets found and the seven keys
    of [look], [page] and [search] present, the script gets to the
    compilation having printed four lines. *)
Lemma reach_compile :
  prepare X h s =
  (def compiled_css <~ compile_styles X h (theme_file h theme) (font_file h font) ;;;
   def sections_html <~ get_sections X config ;;;
   def image_data_url <~ convert_image X image ;;;
   ret (replacement_map lang (YStr compiled_css) title (YStr image_data_url)
          message (YStr sections_html) placeholder))
    (State (fs s) (trace s ++ lines_before_compile X h theme font image message)).
Proof.
  unfold prepare.
  rewrite (start_run X h s text config _ early config_file config_loaded
             (proj2 (proj2 (lookup_two _ _ _ _ theme_named)))).
  erewrite bind_eq
    by (rewrite (get_theme_run h config theme s theme_named), theme_is_found;
        reflexivity).
  erewrite bind_eq
    by (rewrite (get_font_run h config theme font _ theme_named font_named);
        cbn [fs trace]; rewrite font_is_found; reflexivity).
  erewrite bind_eq
    by (rewrite (get_image_run config imagev image _ image_named image_path);
        unfold file_exists; cbn [fs trace]; rewrite image_read; reflexivity).
  erewrite bind_eq by (apply get_message_run; exact message_given).
  erewrite bind_eq by (apply get_page_run; [exact lang_given | exact title_given]).
  erewrite bind_eq by (apply get_search_run; exact placeholder_given).
  cbn [fs trace fst snd]. unfold lines_before_compile, using_image.
  now rewrite <- !app_assoc.
Qed.

(** X17. A stylesheet that does not compile ends the run with status 7, after
    the four lines and the two about the failure, whatever the
    configuration holds under [sections]: that key is only looked at once
    the compilation has succeeded. *)
Theorem compile_failure_comes_first (e : string) :
  sass_compile X (style_source theme_text font_text base_text) = inl e ->
  build X h s =
  (inl (Exit CompileFailed),
   State (fs s)
     (trace s ++ lines_before_compile X h theme font image message
      ++ [Compile (style_source theme_text font_text base_text);
          Print (nl +:+ "Failed to compile your theme/font:");
          Print e])%list).
Proof.
  intros Hfail. apply build_stop. rewrite reach_compile. apply bind_stop.
  rewrite (compile_styles_run X h _ _ theme_text font_text base_text);
    try assumption.
  rewrite Hfail. cbn [fs trace]. now rewrite <- app_assoc.
Qed.

(** With, moreover, a stylesheet that compiles and sections that
    render, the replacement map is built, five more events are logged
    and the disk is as it was. *)
Lemma prepare_run (css html : string) (sections : list (scalar * yaml)) :
  sass_compile X (style_source theme_text font_text base_text) = inr css ->
  Py.getitem config "sections" = inr (YDict sections) ->
  sections_loop X sections EmptyString 0 = inr html ->
  prepare X h s =
  (inr (replacement_map lang (YStr css) title (YStr (data_url X image bytes))
          message (YStr html) placeholder),
   State (fs s)
     (trace s ++ lines_before_compile X h theme font image message
      ++ [Compile (style_source theme_text font_text base_text);
          Print (nl +:+ "Generating sections...");
          Print (tab +:+ "Sections generated.");
          Print (nl +:+ "Converting image...");
          Print (tab +:+ "Image converted.")])%list).
Proof.
  intros Hcss Hsec Hhtml.
  rewrite reach_compile.
  erewrite bind_eq
    by (rewrite (compile_styles_run X h _ _ theme_text font_text base_text);
        try assumption; rewrite Hcss; reflexivity).
  erewrite bind_eq by (apply (get_sections_run X config sections html); assumption).
  erewrite bind_eq by (apply (convert_image_run X image bytes); exact image_read).
  unfold ret. cbn [fs trace]. now rewrite <- !app_assoc.
Qed.


End Reach.

Lemma compile_failure_comes_first_demo :
  build Demo.failing Demo.here (Demo.start EmptyString) =
  (inl (Exit CompileFailed),
   State (fs (Demo.start EmptyString))
     (trace (Demo.start EmptyString)
      ++ lines_before_compile Demo.failing Demo.here "dark" "mono" "pic.png"
           (YStr "Hi")
      ++ [Compile (style_source "$bg: black;" "$font: monospace;" "body{}");
          Print (nl +:+ "Failed to compile your theme/font:");
          Print "Error: invalid CSS"])%list).
Proof.
  apply (compile_failure_comes_first Demo.failing Demo.here
           (Demo.start EmptyString) "look: ..." "dark" "mono" "pic.png"
           Demo.config (YStr "pic.png") (YStr "Hi") (YStr "en") (YStr "Home")
           (YStr "Search") "$bg: black;" "$font: monospace;" "body{}" "abc");
    reflexivity.
Defined.


(** ** Running the script again *)

Lemma apart_lookup (h : host) (content : string) (d : gmap string node)
    (p : string) :
  apart h p = true -> after_run h content d !! p = d !! p.
Proof.
  unfold apart, after_run. intros H. apply andb_prop in H as [Hd Ho].
  apply negb_true_iff in Hd, Ho. apply String.eqb_neq in Hd, Ho.
  rewrite lookup_insert_ne by congruence.
  destruct (dir_exists d (dist_dir h)); [reflexivity |].
  apply lookup_insert_ne. congruence.
Qed.

Lemma after_run_dist (h : host) (content : string) (d : gmap string node) :
  after_run h content d !! dist_dir h = Some Dir.
Proof.
  unfold after_run. rewrite lookup_insert_ne by apply output_not_dist.
  unfold dir_exists. destruct (d !! dist_dir h) as [[c|]|] eqn:E;
    try apply lookup_insert_eq; exact E.
Qed.

Lemma after_run_output (h : host) (content : string) (d : gmap string node) :
  after_run h content d !! html_output_file_path h = Some (File content).
Proof. unfold after_run. apply lookup_insert_eq. Qed.

Lemma after_run_again (h : host) (content : string) (d : gmap string node) :
  after_run h content (after_run h content d) = after_run h content d.
Proof.
  unfold after_run at 1. unfold dir_exists. rewrite after_run_dist.
  unfold after_run. apply insert_insert_eq.
Qed.

Section Again.

Variable X : externals.
Variable h : host.
Variable s : state.
Variables (text theme font image : string).
Variables (config imagev message lang title placeholder : yaml).
Variables (theme_text font_text base_text bytes css html template : string).
Variable sections : list (scalar * yaml).

Hypothesis early : early_failure h (fs s) = None.
Hypothesis config_file : fs s !! config_path h = Some (File text).
Hypothesis config_loaded : safe_load X text = inr config.
Hypothesis theme_named : lookup_path ["look"; "theme"] config = Some (YStr theme).
Hypothesis theme_here : dir_exists (fs s) (theme_dir h theme) = true.
Hypothesis theme_read : fs s !! theme_file h theme = Some (File theme_text).
Hypothesis font_named : lookup_path ["look"; "font"] config = Some (YStr font).
Hypothesis font_here : dir_exists (fs s) (font_dir h font) = true.
Hypothesis font_read : fs s !! font_file h font = Some (File font_text).
Hypothesis image_named : lookup_path ["look"; "image"] config = Some imagev.
Hypothesis image_path : to_path imagev = inr image.
Hypothesis image_read : fs s !! image = Some (File bytes).
Hypothesis message_given : lookup_path ["look"; "message"] config = Some message.
Hypothesis lang_given : lookup_path ["page"; "lang"] config = Some lang.
Hypothesis title_given : lookup_path ["page"; "title"] config = Some title.
Hypothesis placeholder_given :
  lookup_path ["search"; "placeholder"] config = Some placeholder.
Hypothesis base_read : fs s !! style_path h = Some (File base_text).
Hypothesis compiled :
  sass_compile X (style_source theme_text font_text base_text) = inr css.
Hypothesis sections_given : Py.getitem config "sections" = inr (YDict sections).
Hypothesis rendered : sections_loop X sections EmptyString 0 = inr html.
Hypothesis template_read : fs s !! index_path h = Some (File template).
Hypothesis texts :
  is_str lang && is_str title && is_str message && is_str placeholder = true.
Hypothesis dist_free : file_exists (fs s) (dist_dir h) = false.
Hypothesis output_free : dir_exists (fs s) (html_output_file_path h) = false.
Hypothesis inputs_apart : forallb (apart h) (inputs h theme font image) = true.

Lemma items_are_text :
  forallb (fun kv => is_str (snd kv))
    (replacement_map lang (YStr css) title (YStr (data_url X image bytes))
       message (YStr html) placeholder) = true.
Proof.
  pose proof texts as Hstr.
  repeat (apply andb_prop in Hstr as [Hstr ?]). cbn.
  repeat (apply andb_true_intro; split); first [assumption | reflexivity].
Qed.

Lemma first_run :
  exists t,
    build X h s =
    (inr tt,
     State (after_run h
              (replace_all
                 (replacement_map lang (YStr css) title
                    (YStr (data_url X image bytes)) message (YStr html)
                    placeholder) template) (fs s)) t).
Proof.
  eexists. unfold build.
  erewrite bind_eq
    by (apply prepare_run
          with (text := text) (theme := theme) (font := font) (image := image)
               (config := config) (imagev := imagev) (message := message)
               (lang := lang) (title := title) (placeholder := placeholder)
               (theme_text := theme_text) (font_text := font_text)
               (base_text := base_text) (bytes := bytes) (css := css)
               (html := html) (sections := sections);
        assumption).
  rewrite (write_output_run h _ template); cbn [fs trace];
    [reflexivity | assumption | apply items_are_text | assumption | assumption].
Qed.

Lemma inputs_kept (content : string) (p : string) :
  In p (inputs h theme font image) ->
  after_run h content (fs s) !! p = fs s !! p.
Proof.
  intros Hin. apply apart_lookup.
  pose proof inputs_apart as H. rewrite forallb_forall in H. now apply H.
Qed.

Lemma second_run (content : string) (t : list event) :
  content =
    replace_all
      (replacement_map lang (YStr css) title (YStr (data_url X image bytes))
         message (YStr html) placeholder) template ->
  build X h (State (after_run h content (fs s)) t) =
  (inr tt,
   State (after_run h content (fs s))
     (t ++ lines_before_compile X h theme font image message
      ++ events_from_compile h (style_source theme_text font_text base_text)
           content true)%list).
Proof.
  intros Hcontent.
  assert (Hkept : forall p, In p (inputs h theme font image) ->
            after_run h content (fs s) !! p = fs s !! p)
    by (intros p; apply inputs_kept).
  unfold inputs in Hkept. cbn [In] in Hkept.
  unfold build.
  erewrite bind_eq; cycle 1.
  { apply prepare_run
      with (text := text) (theme := theme) (font := font) (image := image)
           (config := config) (imagev := imagev) (message := message)
           (lang := lang) (title := title) (placeholder := placeholder)
           (theme_text := theme_text) (font_text := font_text)
           (base_text := base_text) (bytes := bytes) (css := css)
           (html := html) (sections := sections);
      try assumption; cbn [fs];
      unfold early_failure, file_exists, dir_exists;
      rewrite ?Hkept by tauto; assumption. }
  rewrite (write_output_run h _ template); cbn [fs trace].
  - rewrite <- Hcontent. fold (after_run h content (after_run h content (fs s))).
    rewrite after_run_again. unfold dir_exists. rewrite after_run_dist.
    unfold events_from_compile. cbn [app]. rewrite <- !app_assoc. reflexivity.
  - rewrite Hkept by tauto. exact template_read.
  - apply items_are_text.
  - unfold file_exists. now rewrite after_run_dist.
  - unfold dir_exists. now rewrite after_run_output.
Qed.

(** X19. Running the script again on what a complete run left gives the
    same page: when none of the paths read is the distribution directory
    or the output file, the second run completes too, leaves the disk
    exactly as the first run left it, with the output file holding the
    same text, and its only write is that file, the directory being
    there already. *)
Theorem second_run_changes_nothing :
  fst (build X h s) = inr tt /\
  fst (build X h (snd (build X h s))) = inr tt /\
  fs (snd (build X h (snd (build X h s)))) = fs (snd (build X h s)) /\
  fs (snd (build X h s)) !! html_output_file_path h =
    Some (File (replace_all
                  (replacement_map lang (YStr css) title
                     (YStr (data_url X image bytes)) message (YStr html)
                     placeholder) template)) /\
  file_writes (trace (snd (build X h (snd (build X h s))))) =
    (file_writes (trace (snd (build X h s)))
     ++ [WriteFile (html_output_file_path h)
           (replace_all
              (replacement_map lang (YStr css) title
                 (YStr (data_url X image bytes)) message (YStr html)
                 placeholder) template)])%list.
Proof.
  destruct first_run as [t ->]. cbn [fst snd].
  rewrite (second_run _ t eq_refl). cbn [fst snd fs trace].
  repeat split.
  - apply after_run_output.
  - unfold file_writes, lines_before_compile, events_from_compile.
    rewrite !List.filter_app. cbn. reflexivity.
Qed.

End Again.

Lemma second_run_changes_nothing_demo :
  fst (build (Demo.ext Demo.config) Demo.here
         (Demo.start (flatten Demo.pieces))) = inr tt /\
  fst (build (Demo.ext Demo.config) Demo.here
         (snd (build (Demo.ext Demo.config) Demo.here
                 (Demo.start (flatten Demo.pieces))))) = inr tt /\
  fs (snd (build (Demo.ext Demo.config) Demo.here
             (snd (build (Demo.ext Demo.config) Demo.here
                     (Demo.start (flatten Demo.pieces)))))) =
    fs (snd (build (Demo.ext Demo.config) Demo.here
               (Demo.start (flatten Demo.pieces)))) /\
  fs (snd (build (Demo.ext Demo.config) Demo.here
             (Demo.start (flatten Demo.pieces))))
    !! html_output_file_path Demo.here =
    Some (File (replace_all
                  (replacement_map (YStr "en")
                     (YStr (style_source "$bg: black;" "$font: monospace;" "body{}"))
                     (YStr "Home")
                     (YStr (data_url (Demo.ext Demo.config) "pic.png" "abc"))
                     (YStr "Hi") (YStr Cases.rendered) (YStr "Search"))
                  (flatten Demo.pieces))) /\
  file_writes
    (trace (snd (build (Demo.ext Demo.config) Demo.here
                   (snd (build (Demo.ext Demo.config) Demo.here
                           (Demo.start (flatten Demo.pieces))))))) =
    (file_writes
       (trace (snd (build (Demo.ext Demo.config) Demo.here
                      (Demo.start (flatten Demo.pieces)))))
     ++ [WriteFile (html_output_file_path Demo.here)
           (replace_all
              (replacement_map (YStr "en")
                 (YStr (style_source "$bg: black;" "$font: monospace;" "body{}"))
                 (YStr "Home")
                 (YStr (data_url (Demo.ext Demo.config) "pic.png" "abc"))
                 (YStr "Hi") (YStr Cases.rendered) (YStr "Search"))
              (flatten Demo.pieces))])%list.
Proof.
  apply (second_run_changes_nothing (Demo.ext Demo.config) Demo.here
           (Demo.start (flatten Demo.pieces)) "look: ..." "dark" "mono" "pic.png"
           Demo.config (YStr "pic.png") (YStr "Hi") (YStr "en") (YStr "Home")
           (YStr "Search") "$bg: black;" "$font: monospace;" "body{}" "abc"
           (style_source "$bg: black;" "$font: monospace;" "body{}")
           Cases.rendered (flatten Demo.pieces) Cases.section_list);
    reflexivity.
Defined.

(** ** Missing keys *)

Lemma dict_get_absent (key : string) (d : list (scalar * yaml)) :
  Py.dict_get key d = None ->
  existsb (fun kv => Py.is_key key (fst kv)) d = false.
Proof.
  induction d as [|[k v] d IH]; [reflexivity |].
  cbn [Py.dict_get existsb fst].
  destruct (Py.is_key key k); [discriminate | exact IH].
Qed.

Lemma present_value (config : yaml) (path : list string) :
  present config path = true -> exists v, lookup_path path config = Some v.
Proof.
  unfold present. destruct (lookup_path path config) as [v|]; [eauto | discriminate].
Qed.

Lemma top_contains (config v : yaml) (a : string) :
  lookup_path [a] config = Some v -> Py.contains a config = inr true.
Proof.
  cbn [lookup_path]. destruct (Py.getitem config a) as [e|x] eqn:Ha; [discriminate |].
  intros _. exact (getitem_contains _ _ _ Ha).
Qed.

Lemma absent_contains (config : yaml) (a : string) :
  Py.is_dict config = true ->
  present config [a] = false ->
  Py.contains a config = inr false.
Proof.
  destruct config as [k|l|d]; try discriminate. intros _.
  unfold present. cbn [lookup_path Py.getitem Py.contains].
  destruct (Py.dict_get a d) eqn:E; [discriminate |].
  intros _. now rewrite dict_get_absent.
Qed.

Lemma absent_has_key (config sub : yaml) (a b : string) :
  mappings config = true ->
  In a ["look"; "page"; "search"] ->
  lookup_path [a] config = Some sub ->
  present config [a; b] = false ->
  has_key config a b = ret false.
Proof.
  intros [_ Hsub]%andb_prop Ha Hlook.
  rewrite forallb_forall in Hsub. specialize (Hsub a Ha). rewrite Hlook in Hsub.
  revert Hlook. unfold present, has_key. cbn [lookup_path].
  destruct (Py.getitem config a) as [e|x]; [discriminate |]. intros [= ->].
  destruct sub as [k|l|d]; try discriminate. cbn [ebind Py.getitem Py.contains].
  destruct (Py.dict_get b d) eqn:E; [discriminate |].
  intros _. now rewrite dict_get_absent.
Qed.

Lemma get_theme_absent (h : host) (config : yaml) (s : state) :
  has_key config "look" "theme" = ret false ->
  get_theme h config s =
  (inl (Exit (ConfigError (key_not_found "look/theme"))),
   State (fs s)
     (trace s ++ [Print (key_not_found "look/theme" +:+ nl +:+ refer_to_docs)])).
Proof. intros H. unfold get_theme. now rewrite H. Qed.

Lemma get_image_absent (config : yaml) (s : state) :
  has_key config "look" "image" = ret false ->
  get_image config s =
  (inl (Exit (ConfigError (key_not_found "look/image"))),
   State (fs s)
     (trace s ++ [Print (key_not_found "look/image" +:+ nl +:+ refer_to_docs)])).
Proof. intros H. unfold get_image. now rewrite H. Qed.

Lemma get_message_absent (X : externals) (config : yaml) (s : state) :
  has_key config "look" "message" = ret false ->
  get_message X config s =
  (inl (Exit (ConfigError (key_not_found "look/message"))),
   State (fs s)
     (trace s ++ [Print (key_not_found "look/message" +:+ nl +:+ refer_to_docs)])).
Proof. intros H. unfold get_message. now rewrite H. Qed.

Lemma get_page_absent (config : yaml) (s : state) :
  Py.contains "page" config = inr false ->
  get_page config s =
  (inl (Exit (ConfigError (key_not_found "page"))),
   State (fs s)
     (trace s ++ [Print (key_not_found "page" +:+ nl +:+ refer_to_docs)])).
Proof. intros H. unfold get_page. now rewrite H. Qed.

Lemma get_page_lang_absent (config : yaml) (s : state) :
  Py.contains "page" config = inr true ->
  has_key config "page" "lang" = ret false ->
  get_page config s =
  (inl (Exit (ConfigError (key_not_found "page/lang"))),
   State (fs s)
     (trace s ++ [Print (key_not_found "page/lang" +:+ nl +:+ refer_to_docs)])).
Proof. intros Hc H. unfold get_page. now rewrite Hc, H. Qed.

Lemma get_page_title_absent (config lang : yaml) (s : state) :
  lookup_path ["page"; "lang"] config = Some lang ->
  has_key config "page" "title" = ret false ->
  get_page config s =
  (inl (Exit (ConfigError (key_not_found "page/title"))),
   State (fs s)
     (trace s ++ [Print (key_not_found "page/title" +:+ nl +:+ refer_to_docs)])).
Proof.
  intros (Hh & Hg & Hc)%lookup_two H. unfold get_page. now rewrite Hc, Hh, Hg, H.
Qed.

Lemma get_search_absent (config : yaml) (s : state) :
  Py.contains "search" config = inr false ->
  get_search config s =
  (inl (Exit (ConfigError (key_not_found "search"))),
   State (fs s)
     (trace s ++ [Print (key_not_found "search" +:+ nl +:+ refer_to_docs)])).
Proof. intros H. unfold get_search. now rewrite H. Qed.

Lemma get_search_placeholder_absent (config : yaml) (s : state) :
  Py.contains "search" config = inr true ->
  has_key config "search" "placeholder" = ret false ->
  get_search config s =
  (inl (Exit (ConfigError (key_not_found "search/placeholder"))),
   State (fs s)
     (trace s
      ++ [Print (key_not_found "search/placeholder" +:+ nl +:+ refer_to_docs)])).
Proof. intros Hc H. unfold get_search. now rewrite Hc, H. Qed.

Lemma get_sections_absent (X : externals) (config : yaml) (s : state) :
  Py.contains "sections" config = inr false ->
  get_sections X config s =
  (inl (Exit (ConfigError (key_not_found "sections"))),
   State (fs s)
     (trace s ++ [Print (key_not_found "sections" +:+ nl +:+ refer_to_docs)])).
Proof. intros H. unfold get_sections. now rewrite H. Qed.

(** Closing a stage at the missing key, with the parent entry a mapping. *)
Ltac key_absent Hmaps :=
  eapply absent_has_key; [exact Hmaps | cbn; tauto | eassumption | assumption].

(** When the script gets as far as the test of the first missing
    key-path, that test sends it to the configuration error. *)
Lemma prepare_absent (X : externals) (h : host) (s : state)
    (text theme font image theme_text font_text base_text css : string)
    (config imagev : yaml) (p : list string) :
  early_failure h (fs s) = None ->
  fs s !! config_path h = Some (File text) ->
  safe_load X text = inr config ->
  mappings config = true ->
  first_missing config required_paths = Some p ->
  p <> ["look"; "font"] ->
  (~ In p [["look"]; ["look"; "theme"]] ->
   lookup_path ["look"; "theme"] config = Some (YStr theme) /\
   theme_found (fs s) h theme = true /\
   lookup_path ["look"; "font"] config = Some (YStr font) /\
   font_found (fs s) h font = true) ->
  (~ In p [["look"]; ["look"; "theme"]; ["look"; "image"]] ->
   lookup_path ["look"; "image"] config = Some imagev /\
   to_path imagev = inr image /\
   file_exists (fs s) image = true) ->
  (p = ["sections"] ->
   fs s !! theme_file h theme = Some (File theme_text) /\
   fs s !! font_file h font = Some (File font_text) /\
   fs s !! style_path h = Some (File base_text) /\
   sass_compile X (style_source theme_text font_text base_text) = inr css) ->
  fst (prepare X h s) = inl (Exit (ConfigError (key_not_found (path_name p)))).
Proof.
  intros early config_file config_loaded Hmaps Hfirst Hp Hassets Himage Hcompile.
  destruct (early_checks_pass h s early) as [Hd Hs].
  assert (Hdict : Py.is_dict config = true)
    by (unfold mappings in Hmaps; now apply andb_prop in Hmaps as [? _]).
  unfold required_paths in Hfirst. cbn [first_missing] in Hfirst.
  repeat match type of Hfirst with
         | (if present config ?q then _ else _) = _ =>
             let H := fresh "Hq" in
             destruct (present config q) eqn:H; [| injection Hfirst as <-]
         end; try discriminate; try congruence.
  all: try (specialize (Hassets ltac:(cbn; intuition discriminate));
            destruct Hassets as (Htheme & Hthf & Hfont & Hff)).
  all: try (specialize (Himage ltac:(cbn; intuition discriminate));
            destruct Himage as (Himg & Hpath & Hfile)).
  all: try (specialize (Hcompile eq_refl);
            destruct Hcompile as (Htt & Hft & Hbt & Hcss)).
  all: repeat match goal with
              | H : present _ _ = true |- _ =>
                  apply present_value in H; destruct H as [? H]
              end.
  all: unfold prepare.
  (* line 68 *)
  all: first
         [ rewrite (bind_eq _ _ _ _ _ Hd), (bind_eq _ _ _ _ _ Hs);
           erewrite bind_stop
             by (rewrite (read_config_run X h s text config config_file
                            config_loaded),
                   (absent_contains config "look" Hdict) by assumption;
                 reflexivity);
           reflexivity
         | rewrite (start_run X h s text config _ early config_file config_loaded)
             by (eapply top_contains; eassumption) ].
  (* lines 72-88 *)
  all: first
         [ erewrite bind_stop by (apply get_theme_absent; key_absent Hmaps);
           reflexivity
         | erewrite bind_eq
             by (rewrite (get_theme_run h config theme s Htheme), Hthf;
                 reflexivity) ].
  (* lines 91-107 *)
  all: erewrite bind_eq
         by (rewrite (get_font_run h config theme font _ Htheme Hfont);
             cbn [fs trace]; rewrite Hff; reflexivity).
  (* lines 110-119 *)
  all: first
         [ erewrite bind_stop by (apply get_image_absent; key_absent Hmaps);
           reflexivity
         | erewrite bind_eq
             by (rewrite (get_image_run config imagev image _ Himg Hpath);
                 cbn [fs trace]; rewrite Hfile; reflexivity) ].
  (* lines 122-127 *)
  all: first
         [ erewrite bind_stop by (apply get_message_absent; key_absent Hmaps);
           reflexivity
         | erewrite bind_eq by (apply get_message_run; eassumption) ].
  (* lines 130-141 *)
  all: first
         [ erewrite bind_stop
             by (apply get_page_absent; apply absent_contains; assumption);
           reflexivity
         | erewrite bind_stop
             by (apply get_page_lang_absent;
                 [eapply top_contains; eassumption | key_absent Hmaps]);
           reflexivity
         | erewrite bind_stop
             by (eapply get_page_title_absent;
                 [eassumption | key_absent Hmaps]);
           reflexivity
         | erewrite bind_eq by (apply get_page_run; eassumption) ].
  (* lines 144-150 *)
  all: first
         [ erewrite bind_stop
             by (apply get_search_absent; apply absent_contains; assumption);
           reflexivity
         | erewrite bind_stop
             by (apply get_search_placeholder_absent;
                 [eapply top_contains; eassumption | key_absent Hmaps]);
           reflexivity
         | erewrite bind_eq by (apply get_search_run; eassumption) ].
  (* lines 154-168 *)
  all: erewrite bind_eq
         by (rewrite (compile_styles_run X h _ _ theme_text font_text base_text)
               by assumption;
             rewrite Hcss; reflexivity).
  (* lines 171-172 *)
  all: erewrite bind_stop
         by (apply get_sections_absent; apply absent_contains; assumption).
  all: reflexivity.
Qed.

(** X1. Companion to the [look/font] case.  For each other required
    key-path: when the configuration and its [look], [page] and [search]
    entries are mappings, that key-path is the first one missing, and
    what the script does before testing it succeeds (theme and font
    found for the paths after [look/theme], the image found for the
    paths after [look/image], the stylesheet compiled for [sections]),
    the run ends with the configuration error that names the key-path:
    the message is the last line printed, the status is 3 and nothing
    has been written. *)
Theorem missing_key_is_reported (X : externals) (h : host) (s : state)
    (text theme font image theme_text font_text base_text css : string)
    (config imagev : yaml) (p : list string) :
  early_failure h (fs s) = None ->
  fs s !! config_path h = Some (File text) ->
  safe_load X text = inr config ->
  mappings config = true ->
  first_missing config required_paths = Some p ->
  p <> ["look"; "font"] ->
  (~ In p [["look"]; ["look"; "theme"]] ->
   lookup_path ["look"; "theme"] config = Some (YStr theme) /\
   theme_found (fs s) h theme = true /\
   lookup_path ["look"; "font"] config = Some (YStr font) /\
   font_found (fs s) h font = true) ->
  (~ In p [["look"]; ["look"; "theme"]; ["look"; "image"]] ->
   lookup_path ["look"; "image"] config = Some imagev /\
   to_path imagev = inr image /\
   file_exists (fs s) image = true) ->
  (p = ["sections"] ->
   fs s !! theme_file h theme = Some (File theme_text) /\
   fs s !! font_file h font = Some (File font_text) /\
   fs s !! style_path h = Some (File base_text) /\
   sass_compile X (style_source theme_text font_text base_text) = inr css) ->
  fst (build X h s) = inl (Exit (ConfigError (key_not_found (path_name p)))) /\
  exit_code (ConfigError (key_not_found (path_name p))) = 3%Z /\
  last (trace (snd (build X h s))) =
    Some (Print (key_not_found (path_name p) +:+ nl +:+ refer_to_docs)) /\
  fs (snd (build X h s)) = fs s /\
  file_writes (trace (snd (build X h s))) = file_writes (trace s).
Proof.
  intros early config_file config_loaded Hmaps Hfirst Hp Hassets Himage Hcompile.
  pose proof (prepare_absent X h s text theme font image theme_text font_text
                base_text css config imagev p early config_file config_loaded
                Hmaps Hfirst Hp Hassets Himage Hcompile) as Hstop.
  assert (Hstable : stable (fun _ : state => True))
    by (intros ? ? ? ?; exact Logic.I).
  destruct (prepare_announces X h _ Hstable s Logic.I) as [_ Hann].
  pose proof (prepare_no_write X h s) as [Hfs Htr].
  unfold build, bind.
  destruct (prepare X h s) as [[e|items] s1]; cbn [fst snd] in *;
    [| discriminate].
  injection Hstop as ->. repeat split; try assumption. now apply Hann.
Qed.

Lemma missing_key_is_reported_sections :
  fst (build (Demo.ext Cases.no_sections) Demo.here (Demo.start EmptyString)) =
    inl (Exit (ConfigError (key_not_found (path_name ["sections"])))) /\
  exit_code (ConfigError (key_not_found (path_name ["sections"]))) = 3%Z /\
  last (trace (snd (build (Demo.ext Cases.no_sections) Demo.here
                      (Demo.start EmptyString)))) =
    Some (Print (key_not_found (path_name ["sections"]) +:+ nl
                 +:+ refer_to_docs)) /\
  fs (snd (build (Demo.ext Cases.no_sections) Demo.here (Demo.start EmptyString))) =
    fs (Demo.start EmptyString) /\
  file_writes
    (trace (snd (build (Demo.ext Cases.no_sections) Demo.here
                   (Demo.start EmptyString)))) =
    file_writes (trace (Demo.start EmptyString)).
Proof.
  apply (missing_key_is_reported (Demo.ext Cases.no_sections) Demo.here
           (Demo.start EmptyString) "look: ..." "dark" "mono" "pic.png"
           "$bg: black;" "$font: monospace;" "body{}"
           (style_source "$bg: black;" "$font: monospace;" "body{}")
           Cases.no_sections (YStr "pic.png") ["sections"]);
    first [ reflexivity
          | discriminate
          | intros _; repeat split; reflexivity ].
Defined.
